(** * US Economic Dashboard: data pipeline, chart renderer and animation stepper

    A shallow embedding of [economic_dashboard.py] and
    [economic_dashboard_dualAxis.py].

    - Python floats are IEEE binary64 values: Rocq's primitive floats.
    - Python exceptions are the [Raise] branch of [result].
    - A pandas time stamp is a calendar date at midnight (the FRED series
      are dated on the first day of a month); comparison is
      lexicographic on (year, month, day).
    - A DataFrame is the list of its rows in index order; a column is the
      list of one field of the rows.
    - A plotly figure is a record of its traces, shapes and layout;
      [add_trace], [add_vrect] and [update_layout] pass it explicitly.
    - Streamlit output is the list of the widget updates, in order. *)

From Stdlib Require Import String DecimalString.
From Stdlib Require Import ZArith List Bool Lia Sorted.
From Stdlib Require Import Floats Uint63.
Import ListNotations.

Set Warnings "-inexact-float".

Open Scope Z_scope.

(** ** Python runtime *)

Inductive exn : Type :=
| IndexError
| ValueError
| OverflowError.

Inductive result (A : Type) : Type :=
| OK (a : A)
| Raise (e : exn).

Arguments OK {A} a.
Arguments Raise {A} e.

Definition bind {A B : Type} (c : result A) (k : A -> result B) : result B :=
  match c with
  | OK a => k a
  | Raise e => Raise e
  end.

Notation "x <- c ;; k" := (bind c (fun x => k))
  (at level 61, c at next level, right associativity).

Definition len {A : Type} (l : list A) : Z := Z.of_nat (length l).

(** [l[i]] for a Python sequence: a negative index counts from the end,
    an index out of range raises [IndexError]. *)
Definition getitem {A : Type} (l : list A) (i : Z) : result A :=
  let j := if i <? 0 then i + len l else i in
  if (0 <=? j) && (j <? len l)
  then match nth_error l (Z.to_nat j) with
       | Some a => OK a
       | None => Raise IndexError
       end
  else Raise IndexError.

(** [l[::step]] for [step >= 1]: the elements at positions 0, step,
    2*step, ...  [skip] counts the elements to pass over before the
    next one is taken. *)
Fixpoint stride_from {A : Type} (skip step : nat) (l : list A) : list A :=
  match l with
  | [] => []
  | a :: tl =>
      match skip with
      | O => a :: stride_from (step - 1) step tl
      | S k => stride_from k step tl
      end
  end.

Definition slice_step {A : Type} (l : list A) (step : Z) : list A :=
  stride_from 0 (Z.to_nat step) l.

(** [enumerate(l)], counting from [i]. *)
Fixpoint enumerate_from {A : Type} (i : Z) (l : list A) : list (Z * A) :=
  match l with
  | [] => []
  | a :: tl => (i, a) :: enumerate_from (i + 1) tl
  end.

Definition enumerate {A : Type} (l : list A) : list (Z * A) :=
  enumerate_from 0 l.

(** ** Floats *)

Definition NaN : float := PrimFloat.nan.

(** An [int] below [2^53] as a [float]: exact. *)
Definition float_of_int (z : Z) : float := PrimFloat.of_uint63 (Uint63.of_Z z).

(** [|x| = m * 2^(e - 2154)] with [m] the 53-bit integer mantissa that
    [normfr_mantissa] returns and [e] the biased exponent of
    [frshiftexp] (bias 2101, then 53 mantissa bits). *)
Definition trunc_shift : int := 2154%uint63.

(** The integer part of a non-negative finite float. *)
Definition trunc_magnitude (x : float) : Z :=
  let (f, e) := PrimFloat.frshiftexp x in
  let m := PrimFloat.normfr_mantissa f in
  if (e <=? trunc_shift)%uint63
  then Uint63.to_Z (m >> (trunc_shift - e))%uint63
  else Z.shiftl (Uint63.to_Z m) (Uint63.to_Z (e - trunc_shift)%uint63).

(** [int(x)]: truncation toward zero; [ValueError] on NaN,
    [OverflowError] on an infinity. *)
Definition py_int (x : float) : result Z :=
  if PrimFloat.is_nan x then Raise ValueError
  else if PrimFloat.is_infinity x then Raise OverflowError
  else
    let mag := trunc_magnitude (PrimFloat.abs x) in
    OK (if (x <? 0)%float then - mag else mag).

(** ** Time stamps *)

Record Timestamp : Type := mkTimestamp { year : Z; month : Z; day : Z }.

Definition ts_ltb (a b : Timestamp) : bool :=
  (year a <? year b)
  || ((year a =? year b)
      && ((month a <? month b)
          || ((month a =? month b) && (day a <? day b)))).

Definition ts_leb (a b : Timestamp) : bool :=
  (year a <? year b)
  || ((year a =? year b)
      && ((month a <? month b)
          || ((month a =? month b) && (day a <=? day b)))).

Definition ts_lt (a b : Timestamp) : Prop := ts_ltb a b = true.
Definition ts_le (a b : Timestamp) : Prop := ts_leb a b = true.

(** [datetime.datetime(y, m, d)] *)
Definition datetime (y m d : Z) : Timestamp := mkTimestamp y m d.

(** The range of a pandas time stamp with nanosecond resolution is
    1677-09-21 .. 2262-04-11. *)
Definition valid_timestamp (t : Timestamp) : Prop :=
  1677 <= year t <= 2262 /\ 1 <= month t <= 12 /\ 1 <= day t <= 31.

(** *** [pd.date_range(start, end, freq='QS')]
    The quarter starts (the first of January, April, July, October) from
    the first one on or after [start] up to [end_]. Months are counted
    from year 0: month [q] is month [q mod 12 + 1] of year [q / 12]. *)

Definition month_ord (t : Timestamp) : Z := 12 * year t + (month t - 1).

Definition of_month_ord (q : Z) : Timestamp :=
  mkTimestamp (q / 12) (q mod 12 + 1) 1.

Definition on_quarter_start (t : Timestamp) : bool :=
  (day t =? 1) && ((month t - 1) mod 3 =? 0).

Definition first_quarter_start (t : Timestamp) : Z :=
  if on_quarter_start t then month_ord t else 3 * (month_ord t / 3) + 3.

Definition date_range_QS (start end_ : Timestamp) : list Timestamp :=
  let q0 := first_quarter_start start in
  let count := (month_ord end_ - q0) / 3 + 1 in
  map (fun k => of_month_ord (q0 + 3 * Z.of_nat k)) (seq 0 (Z.to_nat count)).

(** ** pandas *)

(** A row of the frame the provider returns: one cell per requested
    series identifier, in the order requested. *)
Record RawRow : Type := mkRawRow {
  GFDEBTN : float;
  FEDFUNDS : float;
  GDP_id : float;
  CPIAUCSL : float
}.

(** A row of the Observation Table, columns under their logical names. *)
Record Row : Type := mkRow {
  date : Timestamp;
  National_Debt : float;
  Fed_Funds_Rate : float;
  GDP : float;
  Inflation : float
}.

Definition RawFrame : Type := list (Timestamp * RawRow).
Definition DataFrame : Type := list Row.

(** [data.index] and [data[column]] *)
Definition index (data : DataFrame) : list Timestamp := map date data.
Definition column (c : Row -> float) (data : DataFrame) : list float := map c data.

(** [ffill]: a missing cell takes the last value seen above it in its
    column; a missing cell with nothing above it stays missing. *)
Definition fill (prev cur : float) : float :=
  if PrimFloat.is_nan cur then prev else cur.

Definition fill_row (prev cur : RawRow) : RawRow :=
  mkRawRow (fill (GFDEBTN prev) (GFDEBTN cur))
           (fill (FEDFUNDS prev) (FEDFUNDS cur))
           (fill (GDP_id prev) (GDP_id cur))
           (fill (CPIAUCSL prev) (CPIAUCSL cur)).

Fixpoint ffill_from (prev : RawRow) (rows : RawFrame) : RawFrame :=
  match rows with
  | [] => []
  | (d, r) :: tl => let r' := fill_row prev r in (d, r') :: ffill_from r' tl
  end.

Definition ffill (rows : RawFrame) : RawFrame :=
  ffill_from (mkRawRow NaN NaN NaN NaN) rows.

(** [dropna]: the rows with no missing cell. *)
Definition complete (r : RawRow) : bool :=
  negb (PrimFloat.is_nan (GFDEBTN r)) && negb (PrimFloat.is_nan (FEDFUNDS r))
  && negb (PrimFloat.is_nan (GDP_id r)) && negb (PrimFloat.is_nan (CPIAUCSL r)).

Definition dropna (rows : RawFrame) : RawFrame :=
  filter (fun dr => complete (snd dr)) rows.

(** [data.columns = [...]]: the logical names are given by position. *)
Definition rename_row (dr : Timestamp * RawRow) : Row :=
  mkRow (fst dr) (GFDEBTN (snd dr)) (FEDFUNDS (snd dr)) (GDP_id (snd dr))
        (CPIAUCSL (snd dr)).

Definition set_columns (rows : RawFrame) : DataFrame := map rename_row rows.

(** [s.shift(periods)]: the values move down by [periods] rows, the
    head is filled with NaN and the length is kept. *)
Definition shift (periods : nat) (s : list float) : list float :=
  firstn (length s) (repeat NaN periods ++ s).

(** [s.pct_change(periods)] is [s / s.shift(periods) - 1], row by row. *)
Definition pct_change (periods : nat) (s : list float) : list float :=
  map (fun p => (fst p / snd p - 1)%float) (combine s (shift periods s)).

(** [data['Inflation'] = s]: the column is overwritten row by row. *)
Definition set_Inflation (data : DataFrame) (s : list float) : DataFrame :=
  map (fun p => mkRow (date (fst p)) (National_Debt (fst p))
                      (Fed_Funds_Rate (fst p)) (GDP (fst p)) (snd p))
      (combine data s).

(** ** [load_economic_data]
    [DataReader] is the remote provider: it answers a date range with a
    raw frame. *)

Definition start_date_1970 : Timestamp := datetime 1970 1 1.

Definition cleaned (DataReader : Timestamp -> Timestamp -> RawFrame)
    (now : Timestamp) : DataFrame :=
  let data := DataReader start_date_1970 now in
  let data := dropna (ffill data) in
  set_columns data.

Definition load_economic_data (DataReader : Timestamp -> Timestamp -> RawFrame)
    (now : Timestamp) : DataFrame :=
  let data := cleaned DataReader now in
  set_Inflation data
    (map (fun v => (v * 100)%float) (pct_change 12 (column Inflation data))).

(** ** plotly *)

Module Line.
Record t : Type := mk { color : string; width : Z; dash : option string }.
End Line.

Module Scatter.
Record t : Type := mk {
  x : list Timestamp;
  y : list float;
  name : string;
  line : Line.t;
  yaxis : string
}.
End Scatter.

Module VRect.
Record t : Type := mk {
  x0 : Timestamp;
  x1 : Timestamp;
  fillcolor : string;
  opacity : float;
  line_width : Z
}.
End VRect.

Module Axis.
Record t : Type := mk {
  title_text : string;
  title_font_color : string;
  tickfont_color : string;
  overlaying : option string;
  side : string
}.
End Axis.

Module Legend.
Record t : Type := mk {
  orientation : string;
  yanchor : string;
  y : float;
  xanchor : string;
  x : float
}.
End Legend.

Module Margin.
Record t : Type := mk { l : Z; r : Z; t_ : Z; b : Z }.
End Margin.

Module Layout.
Record t : Type := mk {
  title : string;
  xaxis_title : string;
  yaxis : Axis.t;
  yaxis2 : Axis.t;
  hovermode : string;
  legend : Legend.t;
  height : Z;
  margin : Margin.t
}.
End Layout.

Module Figure.
Record t : Type := mk {
  data : list Scatter.t;
  shapes : list VRect.t;
  layout : option Layout.t
}.
End Figure.

(** [go.Figure()] *)
Definition go_Figure : Figure.t := Figure.mk [] [] None.

Definition add_trace (fig : Figure.t) (tr : Scatter.t) : Figure.t :=
  Figure.mk (Figure.data fig ++ [tr]) (Figure.shapes fig) (Figure.layout fig).

Definition add_vrect (fig : Figure.t) (x0 x1 : Timestamp) (fillcolor : string)
    (opacity : float) (line_width : Z) : Figure.t :=
  Figure.mk (Figure.data fig)
            (Figure.shapes fig ++ [VRect.mk x0 x1 fillcolor opacity line_width])
            (Figure.layout fig).

Definition update_layout (fig : Figure.t) (lay : Layout.t) : Figure.t :=
  Figure.mk (Figure.data fig) (Figure.shapes fig) (Some lay).

(** ** Streamlit *)

Inductive ChartKey : Type :=
| no_key
| main_chart
| main_chart_i (i : Z).

(** A metric shows a float under a format: the formatting of a float
    never raises and is left as the format's text. *)
Inductive UIEvent : Type :=
| plotly_chart (fig : Figure.t) (key : ChartKey)
| metric (label : string) (fmt : string) (value : float)
| progress (value : Z)
| sleep (secs : float)
| success (msg : string).

(** ** The chart, shared by both scripts *)

Definition recessions : list (Timestamp * Timestamp) :=
  [ (datetime 1973 11 1, datetime 1975 3 1);
    (datetime 1980 1 1, datetime 1980 7 1);
    (datetime 1981 7 1, datetime 1982 11 1);
    (datetime 1990 7 1, datetime 1991 3 1);
    (datetime 2001 3 1, datetime 2001 11 1);
    (datetime 2007 12 1, datetime 2009 6 1);
    (datetime 2020 2 1, datetime 2020 4 1) ].

Definition layout_configuration : Layout.t :=
  Layout.mk "US Economic Indicators (1970-Present)" "Year"
    (Axis.mk "Debt & GDP (Billions $)" "royalblue" "royalblue" None "left")
    (Axis.mk "Interest & Inflation (%)" "crimson" "crimson" (Some "y"%string)
             "right")
    "x unified"
    (Legend.mk "h" "bottom" 1.02 "right" 1)
    600
    (Margin.mk 50 50 80 50).

(** The four [fig.add_trace(go.Scatter(...))] calls. *)
Definition add_traces (fig : Figure.t) (data : DataFrame) : Figure.t :=
  let fig := add_trace fig
    (Scatter.mk (index data) (column National_Debt data) "National Debt"
                (Line.mk "royalblue" 2 None) "y1") in
  let fig := add_trace fig
    (Scatter.mk (index data) (column GDP data) "GDP"
                (Line.mk "forestgreen" 2 (Some "dot"%string)) "y1") in
  let fig := add_trace fig
    (Scatter.mk (index data) (column Fed_Funds_Rate data) "Fed Funds Rate"
                (Line.mk "crimson" 2 None) "y2") in
  add_trace fig
    (Scatter.mk (index data) (column Inflation data) "Inflation"
                (Line.mk "darkorange" 2 None) "y2").

(** [for rec in recessions: fig.add_vrect(...)] *)
Definition add_recession_bands (fig : Figure.t) : Figure.t :=
  fold_left (fun fig rec => add_vrect fig (fst rec) (snd rec) "gray" 0.2 0)
            recessions fig.

(** ** [economic_dashboard.py] *)

Definition create_combined_chart (data : DataFrame) : Figure.t :=
  let fig := go_Figure in
  let fig := add_traces fig data in
  let fig := add_recession_bands fig in
  update_layout fig layout_configuration.

(** [data[(data.index.year >= year_range[0]) & (data.index.year <= year_range[1])]] *)
Definition filtered_data (data : DataFrame) (year_range : Z * Z) : DataFrame :=
  filter (fun r => (fst year_range <=? year (date r))
                   && (year (date r) <=? snd year_range)) data.

(** The four [st.metric(..., filtered_data[column].iloc[-1])] calls. *)
Definition display_metrics (filtered : DataFrame) : result (list UIEvent) :=
  debt <- getitem (column National_Debt filtered) (-1) ;;
  rate <- getitem (column Fed_Funds_Rate filtered) (-1) ;;
  gdp <- getitem (column GDP filtered) (-1) ;;
  inflation <- getitem (column Inflation filtered) (-1) ;;
  OK [ metric "Current National Debt" "${:,.0f} Billion" debt;
       metric "Current Fed Rate" "{:.2f}%" rate;
       metric "Current GDP" "${:,.0f} Billion" gdp;
       metric "Current Inflation" "{:.2f}%" inflation ].

(** The part of the script below the chart: the year-range slider's value
    filters the table and the metrics show its last row. *)
Definition data_exploration (data : DataFrame) (year_range : Z * Z)
    : result (list UIEvent) :=
  display_metrics (filtered_data data year_range).

(** ** [economic_dashboard_dualAxis.py] *)

Definition create_animated_chart (data : DataFrame) (end_date : option Timestamp)
    : result Figure.t :=
  end_date <- match end_date with
              | None => getitem (index data) (-1)
              | Some d => OK d
              end ;;
  let fig := go_Figure in
  let fig := add_traces fig data in
  let fig := add_recession_bands fig in
  OK (update_layout fig layout_configuration).

(** [step = max(1, len(dates) // (50 * animation_speed))] *)
Definition step (dates : list Timestamp) (animation_speed : Z) : Z :=
  Z.max 1 (len dates / (50 * animation_speed)).

(** [min(100, int((i * step) / len(dates) * 100))] *)
Definition frame_progress (i stp n : Z) : result Z :=
  p <- py_int (float_of_int (i * stp) / float_of_int n * 100)%float ;;
  OK (Z.min 100 p).

Definition show_metrics (current_data : Row) : list UIEvent :=
  [ metric "National Debt" "${:,.0f}B" (National_Debt current_data);
    metric "Fed Rate" "{:.2f}%" (Fed_Funds_Rate current_data);
    metric "GDP" "${:,.0f}B" (GDP current_data);
    metric "Inflation" "{:.2f}%" (Inflation current_data) ].

(** [data[data.index <= date]] *)
Definition rows_upto (data : DataFrame) (cutoff : Timestamp) : DataFrame :=
  filter (fun r => ts_leb (date r) cutoff) data.

(** The body of [for i, date in enumerate(dates[::step])], over the
    frames still to play. *)
Fixpoint animation_loop (data : DataFrame) (animation_speed stp n : Z)
    (frames : list (Z * Timestamp)) : result (list UIEvent) :=
  match frames with
  | [] => OK []
  | (i, d) :: rest =>
      chart <- create_animated_chart data (Some d) ;;
      current_data <- getitem (rows_upto data d) (-1) ;;
      p <- frame_progress i stp n ;;
      evs <- animation_loop data animation_speed stp n rest ;;
      OK ([plotly_chart chart (main_chart_i i)]
          ++ show_metrics current_data
          ++ [progress p; sleep (0.5 / float_of_int animation_speed)]
          ++ evs)
  end.

(** The block under [if play_animation:]. *)
Definition play_animation (data : DataFrame) (animation_speed : Z)
    : result (list UIEvent) :=
  start_date <- getitem (index data) 0 ;;
  end_date <- getitem (index data) (-1) ;;
  let dates := date_range_QS start_date end_date in
  let stp := step dates animation_speed in
  frames <- animation_loop data animation_speed stp (len dates)
              (enumerate (slice_step dates stp)) ;;
  chart <- create_animated_chart data None ;;
  current_data <- getitem data (-1) ;;
  OK ([progress 0] ++ frames
      ++ [plotly_chart chart no_key] ++ show_metrics current_data
      ++ [progress 100; success "Animation complete!"]).

(** The values written to the progress bar, in order. *)
Fixpoint progress_values (evs : list UIEvent) : list Z :=
  match evs with
  | [] => []
  | progress p :: tl => p :: progress_values tl
  | _ :: tl => progress_values tl
  end.

(** ** A decision procedure for the progress values

    [frame_check n prev a] computes the progress value of the frame at
    offset [a] of [n] dates on machine integers, and returns it when the
    conversion to [int] is defined and the value lies between [prev] and
    100. *)
Definition frame_check (n : int) (prev : int) (a : Z) : option int :=
  let v := (PrimFloat.of_uint63 (Uint63.of_Z a) / PrimFloat.of_uint63 n * 100)%float in
  if PrimFloat.is_nan v then None
  else if PrimFloat.is_infinity v then None
  else if (v <? 0)%float then None
  else
    let (f, e) := PrimFloat.frshiftexp (PrimFloat.abs v) in
    if (e <=? trunc_shift)%uint63 then
      let p := (PrimFloat.normfr_mantissa f >> (trunc_shift - e))%uint63 in
      if (prev <=? p)%uint63 && (p <=? 100)%uint63 then Some p else None
    else None.

(** The offsets [a], [a+1], ..., [a+k-1] in turn, each value at least
    the one before. *)
Fixpoint frames_check (n : int) (k : nat) (a : Z) (prev : int) : bool :=
  match k with
  | O => true
  | S k' =>
      match frame_check n prev a with
      | Some p => frames_check n k' (a + 1) p
      | None => false
      end
  end.

(** Every number of dates from 1 to [k], every offset below it. *)
Fixpoint counts_check (k : nat) : bool :=
  match k with
  | O => true
  | S k' =>
      frames_check (Uint63.of_Z (Z.of_nat k)) k 0 0%uint63 && counts_check k'
  end.

(** The most quarter starts between two valid time stamps. *)
Definition max_dates : nat := 2344.

(** The progress value of a frame, 0 where it has none. *)
Definition progress_of (stp n : Z) (frame : Z * Timestamp) : Z :=
  match frame_progress (fst frame) stp n with
  | OK p => p
  | Raise _ => 0
  end.

(** ** The statements of the scripts around the functions *)

(** [t.strftime('%B %Y')]: the full month name and the year (four
    digits for every valid time stamp). *)
Definition month_name (m : Z) : string :=
  match m with
  | 1 => "January" | 2 => "February" | 3 => "March" | 4 => "April"
  | 5 => "May" | 6 => "June" | 7 => "July" | 8 => "August"
  | 9 => "September" | 10 => "October" | 11 => "November" | 12 => "December"
  | _ => ""
  end.

Definition strftime_B_Y (t : Timestamp) : string :=
  String.append (month_name (month t))
    (String.append " " (NilZero.string_of_int (Z.to_int (year t)))).

(** [st.success(f"Data loaded through {data.index[-1].strftime('%B %Y')}")],
    the statement after the load in both scripts. *)
Definition data_loaded (data : DataFrame) : result UIEvent :=
  d <- getitem (index data) (-1) ;;
  OK (success (String.append "Data loaded through " (strftime_B_Y d))).

(** The statements of [economic_dashboard.py] that read the table, in
    order: the load message, the chart, the metrics under the year-range
    slider. The result is what was shown and the exception that ended
    the run, if one did. The static text of the page is left out. *)
Definition dashboard_run (data : DataFrame) (year_range : Z * Z)
    : list UIEvent * option exn :=
  match data_loaded data with
  | Raise e => ([], Some e)
  | OK msg =>
      let chart := create_combined_chart data in
      let shown := [msg; plotly_chart chart no_key] in
      match data_exploration data year_range with
      | Raise e => (shown, Some e)
      | OK metrics => (shown ++ metrics, None)
      end
  end.

(** The pauses of a run, in order. *)
Fixpoint sleeps (evs : list UIEvent) : list float :=
  match evs with
  | [] => []
  | sleep s :: tl => s :: sleeps tl
  | _ :: tl => sleeps tl
  end.

(** The charts of a run, in order. *)
Fixpoint charts (evs : list UIEvent) : list Figure.t :=
  match evs with
  | [] => []
  | plotly_chart fig _ :: tl => fig :: charts tl
  | _ :: tl => charts tl
  end.

(** The progress values of the first and of the last offset of [n]
    dates are 0 and at most 99. *)
Definition ends_check (n : Z) : bool :=
  match frame_progress 0 1 n, frame_progress (n - 1) 1 n with
  | OK p0, OK p1 => (p0 =? 0) && (p1 <=? 99)
  | _, _ => false
  end.

Fixpoint ends_check_upto (k : nat) : bool :=
  match k with
  | O => true
  | S k' => ends_check (Z.of_nat k) && ends_check_upto k'
  end.

(** The speeds the slider offers. *)
Definition speeds : list Z := [1; 2; 3; 4; 5; 6; 7; 8; 9; 10].

(** [time.sleep(0.5 / animation_speed)]: at speed [s'], no slower than
    [s], the pause is no longer, and shorter when [s'] is faster. *)
Definition delay_check (s s' : Z) : bool :=
  implb (s <=? s')
        (0.5 / float_of_int s' <=? 0.5 / float_of_int s)%float
  && implb (s <? s')
           (0.5 / float_of_int s' <? 0.5 / float_of_int s)%float.

(** ** Example inputs *)

Definition jan1970 : Row := mkRow (datetime 1970 1 1) 370 8.98 1051 37.9.
Definition jan1971 : Row := mkRow (datetime 1971 1 1) 390 4.14 1135 39.9.
Definition two_years : DataFrame := [jan1970; jan1971].

Definition jan1980 : Row := mkRow (datetime 1980 1 1) 863 13.82 2789 78.
Definition only_1980 : DataFrame := [jan1980].

(** A date index from January 1970 to April 2026 has 226 quarter starts. *)
Definition dates_1970_2026 : list Timestamp :=
  date_range_QS (datetime 1970 1 1) (datetime 2026 4 1).

(** A provider answer of one complete row. *)
Definition one_row_reader (start_ now : Timestamp) : RawFrame :=
  [ (datetime 1970 1 1, mkRawRow 370 8.98 1051 37.9) ].

(** A provider answer of 14 monthly rows from January 1970: the debt
    is reported each quarter only, the price index is 100, 101, ... *)
Definition monthly_reader (start_ now : Timestamp) : RawFrame :=
  map (fun k : nat =>
         let z := Z.of_nat k in
         (datetime (1970 + z / 12) (z mod 12 + 1) 1,
          mkRawRow (if z mod 3 =? 0 then float_of_int (370 + z) else NaN)
                   8.98 1051 (float_of_int (100 + z))))
      (seq 0 14).

(** A provider answer of three months in which GDP is never reported. *)
Definition no_gdp_reader (start_ now : Timestamp) : RawFrame :=
  [ (datetime 1970 1 1, mkRawRow 370 8.98 NaN 37.9);
    (datetime 1970 2 1, mkRawRow NaN 8.98 NaN 38.1);
    (datetime 1970 3 1, mkRawRow NaN 7.76 NaN 38.3) ].

(** The events of the run of the animation over [two_years] at speed 5. *)
Definition two_years_run : list UIEvent :=
  match play_animation two_years 5 with
  | OK evs => evs
  | Raise _ => []
  end.

(** The class of a float, read off its specification. *)
Definition sf_is_nan (x : spec_float) : bool :=
  match x with S754_nan => true | _ => false end.
Definition sf_is_zero (x : spec_float) : bool :=
  match x with S754_zero _ => true | _ => false end.
Definition sf_is_infinity (x : spec_float) : bool :=
  match x with S754_infinity _ => true | _ => false end.

(** A provider answer of 13 monthly rows in which the price index is 0. *)
Definition zero_price_reader (start_ now : Timestamp) : RawFrame :=
  map (fun k : nat =>
         let z := Z.of_nat k in
         (datetime (1970 + z / 12) (z mod 12 + 1) 1,
          mkRawRow 370 8.98 1051 0))
      (seq 0 13).

(** A provider answer of two complete rows, the later date first. *)
Definition reversed_reader (start_ now : Timestamp) : RawFrame :=
  [ (datetime 1971 1 1, mkRawRow 390 4.14 1135 39.9);
    (datetime 1970 1 1, mkRawRow 370 8.98 1051 37.9) ].

(** ** Facts about the Python runtime *)

Lemma bind_OK {A B : Type} (c : result A) (k : A -> result B) (b : B) :
  bind c k = OK b -> exists a, c = OK a /\ k a = OK b.
Proof.
  destruct c as [a | e]; simpl; intros H.
  - exists a. split; [reflexivity | exact H].
  - discriminate H.
Qed.

Lemma len_nonneg {A : Type} (l : list A) : 0 <= len l.
Proof. unfold len. lia. Qed.

Lemma getitem_nil {A : Type} (i : Z) : getitem (@nil A) i = Raise IndexError.
Proof.
  unfold getitem, len. simpl.
  destruct (i <? 0) eqn:Hi.
  - rewrite Z.add_0_r.
    assert (Hneg : (0 <=? i) = false) by (apply Z.leb_gt; apply Z.ltb_lt; exact Hi).
    rewrite Hneg. reflexivity.
  - destruct (0 <=? i); simpl; [| reflexivity].
    assert (Hlt : (i <? 0) = false) by exact Hi.
    rewrite Hlt. reflexivity.
Qed.

Lemma getitem_last {A : Type} (l : list A) (a : A) :
  getitem (l ++ [a]) (-1) = OK a.
Proof.
  unfold getitem.
  change (-1 <? 0) with true. cbv iota.
  assert (Hlen : len (l ++ [a]) = Z.of_nat (length l) + 1)
    by (unfold len; rewrite length_app; simpl; lia).
  rewrite Hlen.
  replace (-1 + (Z.of_nat (length l) + 1)) with (Z.of_nat (length l)) by lia.
  assert (H0 : (0 <=? Z.of_nat (length l)) = true) by (apply Z.leb_le; lia).
  assert (H1 : (Z.of_nat (length l) <? Z.of_nat (length l) + 1) = true)
    by (apply Z.ltb_lt; lia).
  rewrite H0, H1. cbv [andb]. rewrite Nat2Z.id.
  rewrite nth_error_app2 by lia. rewrite Nat.sub_diag. reflexivity.
Qed.

Lemma getitem_neg1_nonempty {A : Type} (l : list A) :
  l <> [] -> exists a, getitem l (-1) = OK a /\ In a l.
Proof.
  intros Hne. destruct (exists_last Hne) as [l' [a Heq]]. subst l.
  exists a. split; [apply getitem_last | apply in_or_app; right; left; reflexivity].
Qed.

Lemma getitem_0_cons {A : Type} (a : A) (l : list A) : getitem (a :: l) 0 = OK a.
Proof.
  unfold getitem.
  change (0 <? 0) with false. cbv iota.
  assert (H1 : (0 <? len (a :: l)) = true)
    by (apply Z.ltb_lt; unfold len; simpl length; lia).
  rewrite H1. reflexivity.
Qed.

Lemma getitem_map_last {A B : Type} (f : A -> B) (l : list A) (a : A) :
  getitem (map f (l ++ [a])) (-1) = OK (f a).
Proof. rewrite map_app. simpl. apply getitem_last. Qed.

Lemma getitem_neg1_empty_iff {A : Type} (l : list A) :
  getitem l (-1) = Raise IndexError <-> l = [].
Proof.
  split.
  - intros H. destruct l as [| a l]; [reflexivity |].
    destruct (getitem_neg1_nonempty (a :: l)) as [b [Hb _]]; [discriminate |].
    rewrite Hb in H. discriminate H.
  - intros ->. apply getitem_nil.
Qed.

(** ** The runtime model on concrete values *)

Example py_int_truncates :
  py_int 3.7 = OK 3 /\ py_int (-3.7) = OK (-3) /\ py_int 0.999 = OK 0
  /\ py_int 0x1p+62 = OK 4611686018427387904
  /\ py_int 0x1p+70 = OK 1180591620717411303424
  /\ py_int NaN = Raise ValueError
  /\ py_int PrimFloat.infinity = Raise OverflowError.
Proof. repeat split; vm_compute; reflexivity. Qed.

(** [int(29 / 100 * 100)] is 28: the product is 28.999999999999996. *)
Example frame_progress_rounds_down :
  frame_progress 29 1 100 = OK 28 /\ frame_progress 56 4 226 = OK 99.
Proof. split; vm_compute; reflexivity. Qed.

Example slice_step_by_3 : slice_step [1; 2; 3; 4; 5; 6; 7] 3 = [1; 4; 7].
Proof. reflexivity. Qed.

Example getitem_negative :
  getitem [1; 2; 3] (-1) = OK 3 /\ getitem [1; 2; 3] 3 = Raise IndexError
  /\ getitem [1; 2; 3] (-4) = Raise IndexError.
Proof. repeat split; reflexivity. Qed.

Example date_range_rolls_forward :
  date_range_QS (datetime 1970 1 2) (datetime 1971 3 31)
  = [datetime 1970 4 1; datetime 1970 7 1; datetime 1970 10 1; datetime 1971 1 1]
  /\ date_range_QS (datetime 1970 1 1) (datetime 1970 4 1)
     = [datetime 1970 1 1; datetime 1970 4 1]
  /\ date_range_QS (datetime 1970 12 2) (datetime 1970 12 31) = [].
Proof. repeat split; vm_compute; reflexivity. Qed.

Example ffill_then_dropna :
  map (fun dr => GFDEBTN (snd dr))
      (dropna (ffill (monthly_reader start_date_1970 (datetime 2026 11 3))))
  = [370; 370; 370; 373; 373; 373; 376; 376; 376; 379; 379; 379; 382; 382]%float.
Proof. vm_compute. reflexivity. Qed.

Example shift_by_2 : shift 2 [1; 2; 3]%float = [NaN; NaN; 1%float].
Proof. reflexivity. Qed.

(** ** The renderer *)

Lemma create_animated_chart_cutoff (data : DataFrame) (cutoff : Timestamp) :
  create_animated_chart data (Some cutoff) = OK (create_combined_chart data).
Proof. reflexivity. Qed.

Lemma create_animated_chart_default (data : DataFrame) :
  create_animated_chart data None =
  (d <- getitem (index data) (-1) ;; OK (create_combined_chart data)).
Proof. reflexivity. Qed.

Lemma combined_chart_traces (data : DataFrame) :
  map Scatter.x (Figure.data (create_combined_chart data)) = repeat (index data) 4
  /\ map Scatter.y (Figure.data (create_combined_chart data)) =
     [column National_Debt data; column GDP data;
      column Fed_Funds_Rate data; column Inflation data].
Proof. split; reflexivity. Qed.

Lemma combined_chart_shapes (data : DataFrame) :
  Figure.shapes (create_combined_chart data) =
  map (fun rec => VRect.mk (fst rec) (snd rec) "gray" 0.2 0) recessions.
Proof. reflexivity. Qed.

Lemma combined_chart_layout (data : DataFrame) :
  Figure.layout (create_combined_chart data) = Some layout_configuration.
Proof. reflexivity. Qed.

(** C1, at a table of two yearly rows and a cutoff between them: the
    chart comes back with all four traces over both dates, the second
    one later than the cutoff, where the rows up to the cutoff are the
    first row alone. The cutoff is accepted and never applied. *)
Theorem create_animated_chart_draws_past_cutoff :
  exists fig,
    create_animated_chart two_years (Some (datetime 1970 6 1)) = OK fig
    /\ map Scatter.x (Figure.data fig)
       = repeat [datetime 1970 1 1; datetime 1971 1 1] 4
    /\ index (rows_upto two_years (datetime 1970 6 1)) = [datetime 1970 1 1]
    /\ ts_leb (datetime 1971 1 1) (datetime 1970 6 1) = false.
Proof.
  eexists. split; [reflexivity |].
  split; [reflexivity |]. split; reflexivity.
Qed.

(** C4, at the same table and a cutoff before its first date: the
    renderer returns a chart without raising, and no row is at or before
    the cutoff, yet each of the four traces still holds both rows. *)
Theorem create_animated_chart_early_cutoff_not_empty :
  exists fig,
    create_animated_chart two_years (Some (datetime 1969 1 1)) = OK fig
    /\ rows_upto two_years (datetime 1969 1 1) = []
    /\ map (fun tr => length (Scatter.x tr)) (Figure.data fig) = [2; 2; 2; 2]%nat
    /\ map (fun tr => length (Scatter.y tr)) (Figure.data fig) = [2; 2; 2; 2]%nat.
Proof.
  eexists. split; [reflexivity |].
  split; [reflexivity |]. split; reflexivity.
Qed.

(** C9: when the chart with no cutoff exists, the chart with any cutoff
    exists too and has the same shapes, the 7 recession bands, and the
    same layout configuration. *)
Theorem cutoff_keeps_bands_and_layout (data : DataFrame) (cutoff : Timestamp)
    (fig0 : Figure.t) :
  create_animated_chart data None = OK fig0 ->
  exists fig,
    create_animated_chart data (Some cutoff) = OK fig
    /\ Figure.shapes fig = Figure.shapes fig0
    /\ Figure.layout fig = Figure.layout fig0
    /\ Figure.shapes fig
       = map (fun rec => VRect.mk (fst rec) (snd rec) "gray" 0.2 0) recessions
    /\ length (Figure.shapes fig) = 7%nat
    /\ Figure.layout fig = Some layout_configuration.
Proof.
  intros H0. rewrite create_animated_chart_default in H0.
  apply bind_OK in H0. destruct H0 as [d [_ Hfig]].
  injection Hfig as Hfig. subst fig0.
  exists (create_combined_chart data).
  split; [apply create_animated_chart_cutoff |].
  repeat split; reflexivity.
Qed.

Lemma cutoff_keeps_bands_and_layout_witness :
  exists fig,
    create_animated_chart two_years (Some (datetime 1970 6 1)) = OK fig
    /\ Figure.shapes fig = Figure.shapes (create_combined_chart two_years)
    /\ Figure.layout fig = Figure.layout (create_combined_chart two_years)
    /\ Figure.shapes fig
       = map (fun rec => VRect.mk (fst rec) (snd rec) "gray" 0.2 0) recessions
    /\ length (Figure.shapes fig) = 7%nat
    /\ Figure.layout fig = Some layout_configuration.
Proof.
  apply (cutoff_keeps_bands_and_layout two_years (datetime 1970 6 1)
           (create_combined_chart two_years)).
  reflexivity.
Defined.

(** C10: with the cutoff omitted the renderer takes the last entry of
    the date index as the cutoff and goes on as with that cutoff; on the
    empty table the lookup raises [IndexError] and so does the renderer;
    on a table with rows the lookup gives the date of the last row and a
    chart is returned. *)
Theorem create_animated_chart_no_cutoff (data : DataFrame) :
  create_animated_chart data None
  = (d <- getitem (index data) (-1) ;; create_animated_chart data (Some d))
  /\ (create_animated_chart data None = Raise IndexError <-> data = [])
  /\ ((exists fig, create_animated_chart data None = OK fig)
      <-> exists init last_row,
            data = init ++ [last_row]
            /\ getitem (index data) (-1) = OK (date last_row)).
Proof.
  split; [reflexivity |].
  rewrite create_animated_chart_default.
  split.
  - split.
    + intros H. destruct data as [| r tl]; [reflexivity |].
      destruct (getitem_neg1_nonempty (index (r :: tl))) as [d [Hd _]];
        [discriminate |].
      rewrite Hd in H. discriminate H.
    + intros ->. reflexivity.
  - split.
    + intros [fig H]. destruct data as [| r tl]; [discriminate H |].
      destruct (@exists_last _ (r :: tl)) as [init [last_row Heq]];
        [discriminate |].
      exists init, last_row. split; [exact Heq |].
      rewrite Heq. apply getitem_map_last.
    + intros [init [last_row [_ Hget]]]. rewrite Hget.
      eexists. reflexivity.
Qed.

(** ** The metrics under the year-range slider *)

Lemma display_metrics_nil : display_metrics [] = Raise IndexError.
Proof. reflexivity. Qed.

Lemma display_metrics_last (init : DataFrame) (last_row : Row) :
  display_metrics (init ++ [last_row]) =
  OK [ metric "Current National Debt" "${:,.0f} Billion" (National_Debt last_row);
       metric "Current Fed Rate" "{:.2f}%" (Fed_Funds_Rate last_row);
       metric "Current GDP" "${:,.0f} Billion" (GDP last_row);
       metric "Current Inflation" "{:.2f}%" (Inflation last_row) ].
Proof.
  unfold display_metrics, column.
  rewrite !getitem_map_last. reflexivity.
Qed.

(** C5 as stated fails: the table has one row, dated 1980, and the year
    range 1970..1975, which the slider offers, selects no row; the
    metrics then raise [IndexError]. *)
Lemma empty_year_range_raises :
  filtered_data only_1980 (1970, 1975) = []
  /\ data_exploration only_1980 (1970, 1975) = Raise IndexError.
Proof. split; reflexivity. Qed.

(** C5, amended: a cutoff never makes the renderer raise, whatever rows
    it selects; the four metrics of the year-filtered table are the
    values of its last row when the filter selects a row, and raise
    [IndexError] exactly when it selects none. *)
Theorem metrics_defined_iff_rows_selected (data : DataFrame) (year_range : Z * Z) :
  (forall cutoff, exists fig, create_animated_chart data (Some cutoff) = OK fig)
  /\ (data_exploration data year_range = Raise IndexError
      <-> filtered_data data year_range = [])
  /\ (forall init last_row,
        filtered_data data year_range = init ++ [last_row] ->
        data_exploration data year_range =
        OK [ metric "Current National Debt" "${:,.0f} Billion"
               (National_Debt last_row);
             metric "Current Fed Rate" "{:.2f}%" (Fed_Funds_Rate last_row);
             metric "Current GDP" "${:,.0f} Billion" (GDP last_row);
             metric "Current Inflation" "{:.2f}%" (Inflation last_row) ]).
Proof.
  split; [| split].
  - intros cutoff. eexists. apply create_animated_chart_cutoff.
  - unfold data_exploration. split.
    + intros H. destruct (filtered_data data year_range) as [| r tl] eqn:E;
        [reflexivity |].
      destruct (@exists_last _ (r :: tl)) as [init [last_row Heq]];
        [discriminate |].
      rewrite Heq, display_metrics_last in H. discriminate H.
    + intros ->. apply display_metrics_nil.
  - intros init last_row Heq. unfold data_exploration.
    rewrite Heq. apply display_metrics_last.
Qed.

(** ** The animation stride *)

Lemma stride_from_In {A : Type} (a : A) (stp : nat) (l : list A) :
  forall skip, In a (stride_from skip stp l) -> In a l.
Proof.
  induction l as [| b tl IH]; intros skip H; simpl in *.
  - exact H.
  - destruct skip as [| k].
    + destruct H as [H | H]; [left; exact H | right; exact (IH _ H)].
    + right. exact (IH _ H).
Qed.

(** The number of elements of [l[::step]], after [skip] elements are
    passed over: the ceiling of [(len l - skip) / step]. *)
Lemma len_stride_from {A : Type} (stp : nat) (l : list A) :
  forall skip, (skip < stp)%nat ->
  len (stride_from skip stp l)
  = (len l - Z.of_nat skip + Z.of_nat stp - 1) / Z.of_nat stp.
Proof.
  induction l as [| b tl IH]; intros skip Hs.
  - unfold len. simpl. symmetry. apply Z.div_small. lia.
  - destruct skip as [| k].
    + simpl stride_from.
      assert (Hcons : forall (x : A) (xs : list A), len (x :: xs) = len xs + 1)
        by (intros; unfold len; simpl length; lia).
      rewrite !Hcons, IH by lia.
      replace (len tl - Z.of_nat (stp - 1) + Z.of_nat stp - 1) with (len tl) by lia.
      replace (len tl + 1 - Z.of_nat 0 + Z.of_nat stp - 1)
        with (len tl + 1 * Z.of_nat stp) by lia.
      rewrite Z.div_add by lia. reflexivity.
    + simpl stride_from. rewrite IH by lia.
      f_equal. unfold len. simpl length. lia.
Qed.

Lemma len_slice_step {A : Type} (l : list A) (stp : Z) :
  1 <= stp -> len (slice_step l stp) = (len l + stp - 1) / stp.
Proof.
  intros H. unfold slice_step.
  rewrite len_stride_from by lia.
  rewrite Z2Nat.id by lia. f_equal. lia.
Qed.

Lemma step_ge_1 (dates : list Timestamp) (animation_speed : Z) :
  1 <= step dates animation_speed.
Proof. unfold step. lia. Qed.

Lemma step_antitone (dates : list Timestamp) (s1 s2 : Z) :
  1 <= s1 -> s1 <= s2 -> step dates s2 <= step dates s1.
Proof.
  intros H1 H12. unfold step.
  assert (Hn := len_nonneg dates).
  assert (len dates / (50 * s2) <= len dates / (50 * s1))
    by (apply Z.div_le_compat_l; lia).
  lia.
Qed.

Lemma ceil_div_antitone (n a b : Z) :
  0 <= n -> 1 <= a -> a <= b -> (n + b - 1) / b <= (n + a - 1) / a.
Proof.
  intros Hn Ha Hab.
  assert (Hqa := Z.div_mod (n + a - 1) a ltac:(lia)).
  assert (Hra := Z.mod_pos_bound (n + a - 1) a ltac:(lia)).
  assert (Hqb := Z.div_mod (n + b - 1) b ltac:(lia)).
  assert (Hrb := Z.mod_pos_bound (n + b - 1) b ltac:(lia)).
  assert (Hqa0 : 0 <= (n + a - 1) / a) by (apply Z.div_pos; lia).
  destruct (Z_le_gt_dec ((n + b - 1) / b) ((n + a - 1) / a)) as [Hle | Hgt];
    [exact Hle | exfalso].
  assert (Hmul : ((n + a - 1) / a + 1) * a <= (n + b - 1) / b * b) by nia.
  nia.
Qed.

(** C6 as stated fails: over 226 dates, speed 1 gives stride 4 and 57
    frames, speed 5 gives stride 1 and all 226 frames: the higher speed
    plays more frames, each closer to the next. *)
Lemma higher_speed_more_frames :
  len dates_1970_2026 = 226
  /\ step dates_1970_2026 1 = 4
  /\ step dates_1970_2026 5 = 1
  /\ len (slice_step dates_1970_2026 (step dates_1970_2026 1)) = 57
  /\ len (slice_step dates_1970_2026 (step dates_1970_2026 5)) = 226
  /\ ~ (step dates_1970_2026 1 <= step dates_1970_2026 5)
  /\ ~ (len (slice_step dates_1970_2026 (step dates_1970_2026 5))
        <= len (slice_step dates_1970_2026 (step dates_1970_2026 1))).
Proof.
  assert (H1 : step dates_1970_2026 1 = 4) by (vm_compute; reflexivity).
  assert (H5 : step dates_1970_2026 5 = 1) by (vm_compute; reflexivity).
  assert (L1 : len (slice_step dates_1970_2026 (step dates_1970_2026 1)) = 57)
    by (vm_compute; reflexivity).
  assert (L5 : len (slice_step dates_1970_2026 (step dates_1970_2026 5)) = 226)
    by (vm_compute; reflexivity).
  repeat split; try assumption; try (vm_compute; reflexivity); lia.
Qed.

Lemma animation_loop_events (data : DataFrame) (animation_speed stp n : Z)
    (frames : list (Z * Timestamp)) :
  forall evs,
    animation_loop data animation_speed stp n frames = OK evs ->
    charts evs = repeat (create_combined_chart data) (length frames)
    /\ sleeps evs = repeat (0.5 / float_of_int animation_speed)%float (length frames)
    /\ progress_values evs = map (progress_of stp n) frames.
Proof.
  induction frames as [| [i d] rest IH]; intros evs H.
  - simpl in H. injection H as <-. repeat split; reflexivity.
  - cbn [animation_loop] in H.
    rewrite create_animated_chart_cutoff in H. cbn [bind] in H.
    apply bind_OK in H. destruct H as [r [_ H]].
    apply bind_OK in H. destruct H as [p [Hp H]].
    apply bind_OK in H. destruct H as [evs' [Hevs' H]].
    injection H as <-.
    destruct (IH evs' Hevs') as [Hc [Hs Hv]].
    cbn [app show_metrics charts sleeps progress_values length repeat map].
    rewrite Hc, Hs, Hv. unfold progress_of at 2. cbn [fst]. rewrite Hp.
    repeat split; reflexivity.
Qed.

Lemma In_speeds (s : Z) : 1 <= s <= 10 -> In s speeds.
Proof.
  intros H.
  assert (Hs : s = 1 \/ s = 2 \/ s = 3 \/ s = 4 \/ s = 5 \/ s = 6 \/ s = 7
               \/ s = 8 \/ s = 9 \/ s = 10) by lia.
  unfold speeds. simpl.
  repeat (destruct Hs as [Hs | Hs]; [subst s; tauto |]). subst s. tauto.
Qed.

Lemma delay_check_speeds :
  forallb (fun s => forallb (delay_check s) speeds) speeds = true.
Proof. vm_compute. reflexivity. Qed.

Lemma delay_antitone (s s' : Z) :
  1 <= s <= 10 -> 1 <= s' <= 10 ->
  (s <= s' ->
   (0.5 / float_of_int s' <=? 0.5 / float_of_int s)%float = true)
  /\ (s < s' ->
      (0.5 / float_of_int s' <? 0.5 / float_of_int s)%float = true).
Proof.
  intros Hs Hs'.
  pose proof delay_check_speeds as H.
  rewrite forallb_forall in H. specialize (H s (In_speeds s Hs)).
  rewrite forallb_forall in H. specialize (H s' (In_speeds s' Hs')).
  unfold delay_check in H. apply andb_true_iff in H. destruct H as [Hle Hlt].
  split; intros Hc.
  - apply Z.leb_le in Hc. rewrite Hc in Hle. exact Hle.
  - apply Z.ltb_lt in Hc. rewrite Hc in Hlt. exact Hlt.
Qed.

(** C6, amended: for every list of dates and every speed from 1 to 10
    the stride is [max(1, len(dates) // (50 * speed))] and at least 1; a
    higher speed gives a stride that is no larger and a frame sequence
    that is no shorter; each frame is followed by a pause of
    [0.5 / speed] seconds, which is no longer at a speed that is no
    lower and shorter at a higher speed. *)
Theorem step_spec (dates : list Timestamp) (speed speed' : Z) :
  1 <= speed -> speed <= speed' -> speed' <= 10 ->
  step dates speed = Z.max 1 (len dates / (50 * speed))
  /\ 1 <= step dates speed
  /\ step dates speed' <= step dates speed
  /\ len (slice_step dates (step dates speed))
     <= len (slice_step dates (step dates speed'))
  /\ (forall data stp n frames evs,
        animation_loop data speed' stp n frames = OK evs ->
        sleeps evs = repeat (0.5 / float_of_int speed')%float (length frames))
  /\ (0.5 / float_of_int speed' <=? 0.5 / float_of_int speed)%float = true
  /\ (speed < speed' ->
      (0.5 / float_of_int speed' <? 0.5 / float_of_int speed)%float = true).
Proof.
  intros H1 H12 H10.
  split; [reflexivity |].
  split; [apply step_ge_1 |].
  split; [apply step_antitone; assumption |].
  split.
  { rewrite !len_slice_step by apply step_ge_1.
    apply ceil_div_antitone.
    - apply len_nonneg.
    - apply step_ge_1.
    - apply step_antitone; assumption. }
  split.
  { intros data stp n frames evs Hrun.
    apply (animation_loop_events data speed' stp n frames evs Hrun). }
  destruct (delay_antitone speed speed') as [Hle Hlt]; try lia.
  split; [apply Hle; exact H12 | exact Hlt].
Qed.

Lemma step_spec_witness :
  step dates_1970_2026 1 = Z.max 1 (len dates_1970_2026 / (50 * 1))
  /\ 1 <= step dates_1970_2026 1
  /\ step dates_1970_2026 5 <= step dates_1970_2026 1
  /\ len (slice_step dates_1970_2026 (step dates_1970_2026 1))
     <= len (slice_step dates_1970_2026 (step dates_1970_2026 5))
  /\ (forall data stp n frames evs,
        animation_loop data 5 stp n frames = OK evs ->
        sleeps evs = repeat (0.5 / float_of_int 5)%float (length frames))
  /\ (0.5 / float_of_int 5 <=? 0.5 / float_of_int 1)%float = true
  /\ (1 < 5 ->
      (0.5 / float_of_int 5 <? 0.5 / float_of_int 1)%float = true).
Proof. apply (step_spec dates_1970_2026 1 5); lia. Defined.

(** ** Time stamp order *)

Ltac ts_order :=
  unfold ts_lt, ts_le, ts_ltb, ts_leb in *;
  repeat match goal with
         | t : Timestamp |- _ => destruct t
         end;
  simpl in *;
  repeat rewrite ?orb_true_iff, ?andb_true_iff, ?orb_false_iff,
    ?andb_false_iff, ?Z.ltb_lt, ?Z.leb_le, ?Z.eqb_eq, ?Z.ltb_ge, ?Z.leb_gt,
    ?Z.eqb_neq in *;
  lia.

Lemma ts_lt_trans (a b c : Timestamp) : ts_lt a b -> ts_lt b c -> ts_lt a c.
Proof. intros Hab Hbc. ts_order. Qed.

Lemma ts_lt_irrefl (a : Timestamp) : ~ ts_lt a a.
Proof. intros H. ts_order. Qed.

Lemma StronglySorted_ts_lt_NoDup (l : list Timestamp) :
  StronglySorted ts_lt l -> NoDup l.
Proof.
  induction 1 as [| a l Hs IH Hall]; constructor; [| exact IH].
  intros Hin. rewrite Forall_forall in Hall.
  exact (ts_lt_irrefl a (Hall a Hin)).
Qed.

Lemma StronglySorted_map_filter {A B : Type} (R : B -> B -> Prop) (g : A -> B)
    (f : A -> bool) (l : list A) :
  StronglySorted R (map g l) -> StronglySorted R (map g (filter f l)).
Proof.
  induction l as [| a l IH]; simpl; intros H; [constructor |].
  inversion H as [| a' l' Hs Hall]; subst.
  destruct (f a); [| exact (IH Hs)].
  simpl. constructor; [exact (IH Hs) |].
  rewrite Forall_forall in *. intros b Hb.
  apply Hall. rewrite in_map_iff in *.
  destruct Hb as [c [Hc Hin]]. exists c. split; [exact Hc |].
  apply filter_In in Hin. tauto.
Qed.

(** ** The data pipeline *)

Lemma index_ffill_from (rows : RawFrame) :
  forall prev, map fst (ffill_from prev rows) = map fst rows.
Proof.
  induction rows as [| [d r] tl IH]; intros prev; simpl; [reflexivity |].
  rewrite IH. reflexivity.
Qed.

Lemma nth_error_combine {A B : Type} (l : list A) (l' : list B) :
  forall n,
    nth_error (combine l l') n =
    match nth_error l n, nth_error l' n with
    | Some a, Some b => Some (a, b)
    | _, _ => None
    end.
Proof.
  revert l'. induction l as [| a l IH]; intros l' n.
  - destruct n; reflexivity.
  - destruct l' as [| b l'].
    + destruct n; simpl; [reflexivity |]. destruct (nth_error l n); reflexivity.
    + destruct n; simpl; [reflexivity | apply IH].
Qed.

Lemma length_shift (periods : nat) (s : list float) :
  length (shift periods s) = length s.
Proof.
  unfold shift. rewrite length_firstn, length_app, repeat_length. lia.
Qed.

Lemma nth_error_shift (periods : nat) (s : list float) (t : nat) :
  (t < length s)%nat ->
  nth_error (shift periods s) t =
  if (t <? periods)%nat then Some NaN else nth_error s (t - periods).
Proof.
  intros Ht. unfold shift.
  rewrite nth_error_firstn.
  assert (Hlt : (t <? length s)%nat = true) by (apply Nat.ltb_lt; exact Ht).
  rewrite Hlt, nth_error_app, repeat_length.
  destruct (t <? periods)%nat eqn:E; [| reflexivity].
  apply nth_error_repeat. apply Nat.ltb_lt. exact E.
Qed.

Lemma length_pct_change (periods : nat) (s : list float) :
  length (pct_change periods s) = length s.
Proof.
  unfold pct_change. rewrite length_map, length_combine, length_shift. lia.
Qed.

Lemma nth_error_pct_change (periods : nat) (s : list float) (t : nat) (v : float) :
  nth_error s t = Some v ->
  nth_error (pct_change periods s) t =
  if (t <? periods)%nat then Some (v / NaN - 1)%float
  else option_map (fun v0 => (v / v0 - 1)%float) (nth_error s (t - periods)).
Proof.
  intros Hv.
  assert (Ht : (t < length s)%nat) by (apply nth_error_Some; congruence).
  unfold pct_change.
  rewrite nth_error_map, nth_error_combine, Hv, nth_error_shift by exact Ht.
  destruct (t <? periods)%nat; [reflexivity |].
  destruct (nth_error s (t - periods)); reflexivity.
Qed.

(** NaN propagates through the arithmetic of [pct_change]. *)
Lemma div_NaN (v : float) : (v / NaN)%float = NaN.
Proof.
  apply Prim2SF_inj. rewrite FloatAxioms.div_spec.
  change (Prim2SF NaN) with S754_nan.
  unfold SF64div, SFdiv. destruct (Prim2SF v); reflexivity.
Qed.

Lemma NaN_sub (v : float) : (NaN - v)%float = NaN.
Proof.
  apply Prim2SF_inj. rewrite FloatAxioms.sub_spec.
  change (Prim2SF NaN) with S754_nan.
  unfold SF64sub, SFsub, SFadd, SFopp. destruct (Prim2SF v); reflexivity.
Qed.

Lemma NaN_mul (v : float) : (NaN * v)%float = NaN.
Proof.
  apply Prim2SF_inj. rewrite FloatAxioms.mul_spec.
  change (Prim2SF NaN) with S754_nan.
  unfold SF64mul, SFmul. destruct (Prim2SF v); reflexivity.
Qed.

Lemma pct_of_NaN (v : float) : ((v / NaN - 1) * 100)%float = NaN.
Proof. rewrite div_NaN, NaN_sub, NaN_mul. reflexivity. Qed.

Lemma set_Inflation_columns (data : DataFrame) :
  forall s, length s = length data ->
  index (set_Inflation data s) = index data
  /\ column National_Debt (set_Inflation data s) = column National_Debt data
  /\ column Fed_Funds_Rate (set_Inflation data s) = column Fed_Funds_Rate data
  /\ column GDP (set_Inflation data s) = column GDP data
  /\ column Inflation (set_Inflation data s) = s.
Proof.
  induction data as [| r tl IH]; intros s Hlen.
  - destruct s; [| discriminate Hlen]. repeat split; reflexivity.
  - destruct s as [| v s]; [discriminate Hlen |].
    injection Hlen as Hlen.
    destruct (IH s Hlen) as [Hi [Hd [Hr [Hg Hf]]]].
    unfold set_Inflation, index, column in *. simpl.
    rewrite Hi, Hd, Hr, Hg, Hf. repeat split; reflexivity.
Qed.

Lemma length_scaled_pct_change (data : DataFrame) :
  length (map (fun v => (v * 100)%float) (pct_change 12 (column Inflation data)))
  = length data.
Proof.
  rewrite length_map, length_pct_change. unfold column. apply length_map.
Qed.

Lemma load_economic_data_columns (DataReader : Timestamp -> Timestamp -> RawFrame)
    (now : Timestamp) :
  index (load_economic_data DataReader now) = index (cleaned DataReader now)
  /\ column National_Debt (load_economic_data DataReader now)
     = column National_Debt (cleaned DataReader now)
  /\ column Fed_Funds_Rate (load_economic_data DataReader now)
     = column Fed_Funds_Rate (cleaned DataReader now)
  /\ column GDP (load_economic_data DataReader now)
     = column GDP (cleaned DataReader now)
  /\ column Inflation (load_economic_data DataReader now)
     = map (fun v => (v * 100)%float)
           (pct_change 12 (column Inflation (cleaned DataReader now))).
Proof.
  unfold load_economic_data.
  apply set_Inflation_columns. apply length_scaled_pct_change.
Qed.

Lemma cleaned_raw_column (DataReader : Timestamp -> Timestamp -> RawFrame)
    (now : Timestamp) :
  column Inflation (cleaned DataReader now)
  = map (fun dr => CPIAUCSL (snd dr))
        (dropna (ffill (DataReader start_date_1970 now))).
Proof. unfold cleaned, column, set_columns. rewrite map_map. reflexivity. Qed.

Lemma cleaned_index (DataReader : Timestamp -> Timestamp -> RawFrame)
    (now : Timestamp) :
  index (cleaned DataReader now)
  = map fst (dropna (ffill (DataReader start_date_1970 now))).
Proof. unfold cleaned, index, set_columns. rewrite map_map. reflexivity. Qed.

Lemma cleaned_complete (DataReader : Timestamp -> Timestamp -> RawFrame)
    (now : Timestamp) :
  Forall (fun r => PrimFloat.is_nan (National_Debt r) = false
                   /\ PrimFloat.is_nan (Fed_Funds_Rate r) = false
                   /\ PrimFloat.is_nan (GDP r) = false
                   /\ PrimFloat.is_nan (Inflation r) = false)
         (cleaned DataReader now).
Proof.
  unfold cleaned, set_columns, dropna.
  rewrite Forall_forall. intros r Hr.
  rewrite in_map_iff in Hr. destruct Hr as [dr [Hdr Hin]]. subst r.
  apply filter_In in Hin. destruct Hin as [_ Hc].
  unfold complete in Hc. rewrite !andb_true_iff, !negb_true_iff in Hc.
  simpl. tauto.
Qed.

Lemma inflation_cell (DataReader : Timestamp -> Timestamp -> RawFrame)
    (now : Timestamp) (t : nat) (v : float) :
  nth_error (column Inflation (cleaned DataReader now)) t = Some v ->
  nth_error (column Inflation (load_economic_data DataReader now)) t =
  if (t <? 12)%nat then Some NaN
  else option_map (fun v0 => ((v / v0 - 1) * 100)%float)
         (nth_error (column Inflation (cleaned DataReader now)) (t - 12)).
Proof.
  intros Hv.
  destruct (load_economic_data_columns DataReader now) as [_ [_ [_ [_ Hcol]]]].
  rewrite Hcol, nth_error_map, (nth_error_pct_change 12 _ t v Hv).
  destruct (t <? 12)%nat.
  - simpl. rewrite pct_of_NaN. reflexivity.
  - destruct (nth_error (column Inflation (cleaned DataReader now)) (t - 12));
      reflexivity.
Qed.

Lemma length_load_economic_data (DataReader : Timestamp -> Timestamp -> RawFrame)
    (now : Timestamp) :
  length (load_economic_data DataReader now) = length (cleaned DataReader now).
Proof.
  destruct (load_economic_data_columns DataReader now) as [Hidx _].
  unfold index in Hidx.
  rewrite <- (length_map date (load_economic_data DataReader now)), Hidx.
  apply length_map.
Qed.

Lemma In_set_Inflation (data : DataFrame) (s : list float) (r : Row) :
  In r (set_Inflation data s) ->
  exists r0, In r0 data
             /\ date r = date r0
             /\ National_Debt r = National_Debt r0
             /\ Fed_Funds_Rate r = Fed_Funds_Rate r0
             /\ GDP r = GDP r0.
Proof.
  unfold set_Inflation. rewrite in_map_iff.
  intros [[r0 v] [Heq Hin]]. subst r.
  exists r0. split; [exact (in_combine_l _ _ _ _ Hin) |].
  repeat split; reflexivity.
Qed.

(** *** Which results of the percent change are NaN *)

Lemma SFeqb_refl (x : spec_float) : SFeqb x x = negb (sf_is_nan x).
Proof.
  unfold SFeqb. destruct x as [s | s | | s m e]; simpl; try reflexivity.
  - destruct s; reflexivity.
  - destruct s; rewrite Z.compare_refl, Pos.compare_cont_refl; reflexivity.
Qed.

Lemma is_nan_Prim2SF (x : float) : PrimFloat.is_nan x = sf_is_nan (Prim2SF x).
Proof.
  unfold PrimFloat.is_nan. rewrite FloatAxioms.eqb_spec, SFeqb_refl.
  apply negb_involutive.
Qed.

Lemma is_zero_Prim2SF (x : float) : PrimFloat.is_zero x = sf_is_zero (Prim2SF x).
Proof.
  unfold PrimFloat.is_zero. rewrite FloatAxioms.eqb_spec.
  change (Prim2SF zero) with (S754_zero false).
  destruct (Prim2SF x) as [s | s | | s m e]; try reflexivity;
    destruct s; reflexivity.
Qed.

Lemma is_infinity_Prim2SF (x : float) :
  PrimFloat.is_infinity x = sf_is_infinity (Prim2SF x).
Proof.
  unfold PrimFloat.is_infinity.
  rewrite FloatAxioms.eqb_spec, FloatAxioms.abs_spec.
  change (Prim2SF infinity) with (S754_infinity false).
  destruct (Prim2SF x) as [s | s | | s m e]; reflexivity.
Qed.

Lemma shr_1_nonneg (mrs : shr_record) : 0 <= shr_m mrs -> 0 <= shr_m (shr_1 mrs).
Proof.
  destruct mrs as [m r s]. simpl.
  destruct m as [| p | p]; try destruct p; simpl; lia.
Qed.

Lemma iter_pos_shr_1_nonneg (n : positive) :
  forall mrs, 0 <= shr_m mrs -> 0 <= shr_m (iter_pos shr_1 n mrs).
Proof.
  induction n as [n IH | n IH |]; intros mrs H; simpl.
  - apply IH, IH, shr_1_nonneg, H.
  - apply IH, IH, H.
  - apply shr_1_nonneg, H.
Qed.

Lemma shr_fexp_nonneg (m e : Z) (l : location) :
  0 <= m -> 0 <= shr_m (fst (shr_fexp prec emax m e l)).
Proof.
  intros H. unfold shr_fexp, shr.
  assert (H0 : 0 <= shr_m (shr_record_of_loc m l))
    by (destruct l as [| []]; exact H).
  destruct (fexp prec emax (Zdigits2 m + e) - e) as [| p | p]; simpl;
    try exact H0.
  apply iter_pos_shr_1_nonneg, H0.
Qed.

Lemma round_nearest_even_nonneg (m : Z) (l : location) :
  0 <= m -> 0 <= round_nearest_even m l.
Proof.
  intros H. destruct l as [| []]; simpl; try lia.
  destruct (Z.even m); lia.
Qed.

Lemma binary_round_aux_not_nan (sx : bool) (m e : Z) (l : location) :
  0 <= m -> sf_is_nan (binary_round_aux prec emax sx m e l) = false.
Proof.
  intros H. unfold binary_round_aux.
  pose proof (shr_fexp_nonneg m e l H) as H1.
  destruct (shr_fexp prec emax m e l) as [mrs' e']. simpl in H1.
  pose proof (shr_fexp_nonneg
                (round_nearest_even (shr_m mrs') (loc_of_shr_record mrs')) e'
                loc_Exact (round_nearest_even_nonneg _ _ H1)) as H2.
  destruct (shr_fexp prec emax _ e' loc_Exact) as [mrs'' e'']. simpl in H2.
  destruct (shr_m mrs'') as [| p | p]; [reflexivity | | lia].
  destruct (e'' <=? emax - prec); reflexivity.
Qed.

Lemma binary_normalize_not_nan (m e : Z) (szero : bool) :
  sf_is_nan (binary_normalize prec emax m e szero) = false.
Proof.
  unfold binary_normalize, binary_round.
  destruct m as [| p | p]; [reflexivity | |];
    destruct (shl_align _ _ _) as [mz ez];
    apply binary_round_aux_not_nan; lia.
Qed.

Lemma SFdiv_nan (x y : spec_float) :
  sf_is_nan x = false -> sf_is_nan y = false ->
  sf_is_nan (SF64div x y)
  = (sf_is_zero x && sf_is_zero y) || (sf_is_infinity x && sf_is_infinity y).
Proof.
  intros Hx Hy. unfold SF64div, SFdiv.
  destruct x as [sx | sx | | sx mx ex], y as [sy | sy | | sy my ey];
    try discriminate; try reflexivity.
  simpl sf_is_zero. simpl sf_is_infinity. simpl orb.
  unfold SFdiv_core_binary.
  set (m' := match _ with Zpos _ => _ | Z0 => _ | Zneg _ => 0 end).
  assert (Hm' : 0 <= m').
  { unfold m'. destruct (_ - _ - _) as [| p | p]; try lia.
    apply Z.shiftl_nonneg. lia. }
  pose proof (Z.div_pos m' (Z.pos my) Hm' ltac:(lia)) as Hq.
  unfold Z.div in Hq.
  destruct (Z.div_eucl m' (Z.pos my)) as [q r].
  apply binary_round_aux_not_nan. exact Hq.
Qed.

Lemma SFsub_finite_not_nan (x : spec_float) (s : bool) (m : positive) (e : Z) :
  sf_is_nan x = false -> sf_is_nan (SF64sub x (S754_finite s m e)) = false.
Proof.
  intros Hx. unfold SF64sub, SFsub.
  destruct x as [sx | sx | | sx mx ex]; try discriminate; try reflexivity.
  apply binary_normalize_not_nan.
Qed.

Lemma SFmul_finite_not_nan (x : spec_float) (s : bool) (m : positive) (e : Z) :
  sf_is_nan x = false -> sf_is_nan (SF64mul x (S754_finite s m e)) = false.
Proof.
  intros Hx. unfold SF64mul, SFmul.
  destruct x as [sx | sx | | sx mx ex]; try discriminate; try reflexivity.
  apply binary_round_aux_not_nan. lia.
Qed.

Lemma is_nan_pct (v v12 : float) :
  PrimFloat.is_nan v = false -> PrimFloat.is_nan v12 = false ->
  PrimFloat.is_nan ((v / v12 - 1) * 100)%float
  = (PrimFloat.is_zero v && PrimFloat.is_zero v12)
    || (PrimFloat.is_infinity v && PrimFloat.is_infinity v12).
Proof.
  rewrite !is_nan_Prim2SF, !is_zero_Prim2SF, !is_infinity_Prim2SF.
  intros Hv Hv12.
  rewrite FloatAxioms.mul_spec, FloatAxioms.sub_spec, FloatAxioms.div_spec.
  rewrite <- (SFdiv_nan _ _ Hv Hv12).
  assert (H1 : exists s m e, Prim2SF 1 = S754_finite s m e)
    by (repeat eexists; vm_compute; reflexivity).
  assert (H100 : exists s m e, Prim2SF 100 = S754_finite s m e)
    by (repeat eexists; vm_compute; reflexivity).
  destruct H1 as [s1 [m1 [e1 ->]]]. destruct H100 as [s2 [m2 [e2 ->]]].
  destruct (sf_is_nan (SF64div (Prim2SF v) (Prim2SF v12))) eqn:E.
  - destruct (SF64div (Prim2SF v) (Prim2SF v12)); try discriminate E.
    reflexivity.
  - apply SFmul_finite_not_nan, SFsub_finite_not_nan. exact E.
Qed.

Lemma cleaned_price_not_nan (DataReader : Timestamp -> Timestamp -> RawFrame)
    (now : Timestamp) (t : nat) (v : float) :
  nth_error (column Inflation (cleaned DataReader now)) t = Some v ->
  PrimFloat.is_nan v = false.
Proof.
  intros Hv. unfold column in Hv. rewrite nth_error_map in Hv.
  destruct (nth_error (cleaned DataReader now) t) as [r0 |] eqn:E;
    [| discriminate Hv].
  simpl in Hv. injection Hv as <-.
  pose proof (cleaned_complete DataReader now) as Hc.
  rewrite Forall_forall in Hc.
  apply (Hc r0 (nth_error_In _ _ E)).
Qed.

(** C2 as stated fails, in three ways. The provider answers with one
    complete row and the table has a missing Inflation cell. The
    provider answers with 13 complete monthly rows whose price index is
    0, and the Inflation cell of row 12 is missing. The provider answers
    with two complete rows, the later first, and the dates of the table
    are not increasing. *)
Lemma load_economic_data_missing_inflation :
  (Sorted ts_lt (map fst (one_row_reader start_date_1970 (datetime 2026 11 3)))
   /\ map (fun r => PrimFloat.is_nan (Inflation r))
          (load_economic_data one_row_reader (datetime 2026 11 3)) = [true])
  /\ (Sorted ts_lt (map fst (zero_price_reader start_date_1970 (datetime 2026 11 3)))
      /\ length (load_economic_data zero_price_reader (datetime 2026 11 3)) = 13%nat
      /\ nth_error (map (fun r => PrimFloat.is_nan (Inflation r))
                      (load_economic_data zero_price_reader (datetime 2026 11 3)))
                   12
         = Some true)
  /\ (index (load_economic_data reversed_reader (datetime 2026 11 3))
      = [datetime 1971 1 1; datetime 1970 1 1]
      /\ ts_ltb (datetime 1971 1 1) (datetime 1970 1 1) = false).
Proof.
  split; [| split].
  - split; [repeat constructor | reflexivity].
  - split; [vm_compute; repeat constructor |].
    split; vm_compute; reflexivity.
  - split; reflexivity.
Qed.

(** C2, amended: when the provider's dates are strictly increasing, the
    table has strictly increasing dates, no duplicate date and no
    missing cell in the National Debt, Fed Funds Rate and GDP columns.
    In the Inflation column the cells of the first 12 rows are missing,
    and the cell of a row from row 12 on is missing exactly when the
    price index of that row and of the row 12 before it are both zero
    or both infinite. *)
Theorem load_economic_data_table (DataReader : Timestamp -> Timestamp -> RawFrame)
    (now : Timestamp) :
  Sorted ts_lt (map fst (DataReader start_date_1970 now)) ->
  Sorted ts_lt (index (load_economic_data DataReader now))
  /\ NoDup (index (load_economic_data DataReader now))
  /\ Forall (fun r => PrimFloat.is_nan (National_Debt r) = false
                      /\ PrimFloat.is_nan (Fed_Funds_Rate r) = false
                      /\ PrimFloat.is_nan (GDP r) = false)
            (load_economic_data DataReader now)
  /\ (forall t r, (t < 12)%nat ->
        nth_error (load_economic_data DataReader now) t = Some r ->
        PrimFloat.is_nan (Inflation r) = true)
  /\ (forall t r, (12 <= t)%nat ->
        nth_error (load_economic_data DataReader now) t = Some r ->
        exists v v12,
          nth_error (map (fun dr => CPIAUCSL (snd dr))
                       (dropna (ffill (DataReader start_date_1970 now)))) t
          = Some v
          /\ nth_error (map (fun dr => CPIAUCSL (snd dr))
                          (dropna (ffill (DataReader start_date_1970 now))))
                       (t - 12)
             = Some v12
          /\ PrimFloat.is_nan (Inflation r)
             = (PrimFloat.is_zero v && PrimFloat.is_zero v12)
               || (PrimFloat.is_infinity v && PrimFloat.is_infinity v12)).
Proof.
  intros Hsorted.
  assert (Hss : StronglySorted ts_lt (index (load_economic_data DataReader now))).
  { destruct (load_economic_data_columns DataReader now) as [Hidx _].
    rewrite Hidx, cleaned_index. unfold dropna.
    apply StronglySorted_map_filter.
    unfold ffill. rewrite index_ffill_from.
    apply Sorted_StronglySorted; [| exact Hsorted].
    intros a b c. apply ts_lt_trans. }
  assert (Hcell : forall t r,
             nth_error (load_economic_data DataReader now) t = Some r ->
             exists v,
               nth_error (column Inflation (cleaned DataReader now)) t = Some v
               /\ Some (Inflation r)
                  = if (t <? 12)%nat then Some NaN
                    else option_map (fun v0 => ((v / v0 - 1) * 100)%float)
                           (nth_error (column Inflation (cleaned DataReader now))
                              (t - 12))).
  { intros t r Hr.
    assert (Hlen : (t < length (column Inflation (cleaned DataReader now)))%nat).
    { unfold column. rewrite length_map, <- length_load_economic_data.
      apply nth_error_Some. congruence. }
    destruct (nth_error (column Inflation (cleaned DataReader now)) t) as [v |] eqn:Hv;
      [| apply nth_error_None in Hv; lia].
    exists v. split; [reflexivity |].
    rewrite <- (inflation_cell DataReader now t v Hv).
    unfold column. rewrite nth_error_map, Hr. reflexivity. }
  split; [apply StronglySorted_Sorted; exact Hss |].
  split; [apply StronglySorted_ts_lt_NoDup; exact Hss |].
  split; [| split].
  - rewrite Forall_forall. intros r Hr.
    apply In_set_Inflation in Hr.
    destruct Hr as [r0 [Hin [_ [Hd [Hf Hg]]]]].
    pose proof (cleaned_complete DataReader now) as Hc.
    rewrite Forall_forall in Hc. specialize (Hc r0 Hin).
    rewrite Hd, Hf, Hg. tauto.
  - intros t r Ht Hr.
    destruct (Hcell t r Hr) as [v [_ Hval]].
    assert (Hlt : (t <? 12)%nat = true) by (apply Nat.ltb_lt; exact Ht).
    rewrite Hlt in Hval. injection Hval as ->. reflexivity.
  - intros t r Ht Hr.
    destruct (Hcell t r Hr) as [v [Hv Hval]].
    assert (Hge : (t <? 12)%nat = false) by (apply Nat.ltb_ge; exact Ht).
    rewrite Hge in Hval.
    assert (Hlen : (t - 12 < length (column Inflation (cleaned DataReader now)))%nat).
    { assert (t < length (column Inflation (cleaned DataReader now)))%nat
        by (apply nth_error_Some; congruence).
      lia. }
    destruct (nth_error (column Inflation (cleaned DataReader now)) (t - 12))
      as [v12 |] eqn:Hv12; [| apply nth_error_None in Hv12; lia].
    simpl in Hval. injection Hval as ->.
    rewrite <- cleaned_raw_column.
    exists v, v12. split; [exact Hv |]. split; [exact Hv12 |].
    apply is_nan_pct.
    + exact (cleaned_price_not_nan DataReader now t v Hv).
    + exact (cleaned_price_not_nan DataReader now (t - 12) v12 Hv12).
Qed.

Lemma load_economic_data_table_witness :
  Sorted ts_lt (index (load_economic_data monthly_reader (datetime 2026 11 3)))
  /\ NoDup (index (load_economic_data monthly_reader (datetime 2026 11 3)))
  /\ Forall (fun r => PrimFloat.is_nan (National_Debt r) = false
                      /\ PrimFloat.is_nan (Fed_Funds_Rate r) = false
                      /\ PrimFloat.is_nan (GDP r) = false)
            (load_economic_data monthly_reader (datetime 2026 11 3))
  /\ (forall t r, (t < 12)%nat ->
        nth_error (load_economic_data monthly_reader (datetime 2026 11 3)) t = Some r ->
        PrimFloat.is_nan (Inflation r) = true)
  /\ (forall t r, (12 <= t)%nat ->
        nth_error (load_economic_data monthly_reader (datetime 2026 11 3)) t = Some r ->
        exists v v12,
          nth_error (map (fun dr => CPIAUCSL (snd dr))
                       (dropna (ffill (monthly_reader start_date_1970
                                         (datetime 2026 11 3))))) t
          = Some v
          /\ nth_error (map (fun dr => CPIAUCSL (snd dr))
                          (dropna (ffill (monthly_reader start_date_1970
                                            (datetime 2026 11 3)))))
                       (t - 12)
             = Some v12
          /\ PrimFloat.is_nan (Inflation r)
             = (PrimFloat.is_zero v && PrimFloat.is_zero v12)
               || (PrimFloat.is_infinity v && PrimFloat.is_infinity v12)).
Proof.
  apply (load_economic_data_table monthly_reader (datetime 2026 11 3)).
  vm_compute. repeat constructor.
Defined.

(** C3: the transform keeps every row of the cleaned table, with its
    date; where [raw] is the forward-filled, row-dropped CPIAUCSL column
    and [t] one of its rows, the Inflation cell of row [t] is NaN for
    [t < 12] and [(raw[t] / raw[t-12] - 1) * 100] for [t >= 12]. *)
Theorem inflation_is_pct_change (DataReader : Timestamp -> Timestamp -> RawFrame)
    (now : Timestamp) (t : nat) (v : float) :
  nth_error (map (fun dr => CPIAUCSL (snd dr))
               (dropna (ffill (DataReader start_date_1970 now)))) t = Some v ->
  length (load_economic_data DataReader now)
  = length (dropna (ffill (DataReader start_date_1970 now)))
  /\ index (load_economic_data DataReader now)
     = map fst (dropna (ffill (DataReader start_date_1970 now)))
  /\ ((t < 12)%nat ->
      nth_error (column Inflation (load_economic_data DataReader now)) t
      = Some NaN)
  /\ ((12 <= t)%nat ->
      exists v12,
        nth_error (map (fun dr => CPIAUCSL (snd dr))
                     (dropna (ffill (DataReader start_date_1970 now)))) (t - 12)
        = Some v12
        /\ nth_error (column Inflation (load_economic_data DataReader now)) t
           = Some ((v / v12 - 1) * 100)%float).
Proof.
  rewrite <- cleaned_raw_column. intros Hv.
  pose proof (inflation_cell DataReader now t v Hv) as Hcell.
  split.
  { rewrite length_load_economic_data. unfold cleaned, set_columns.
    apply length_map. }
  split.
  { destruct (load_economic_data_columns DataReader now) as [Hidx _].
    rewrite Hidx. apply cleaned_index. }
  split.
  - intros Ht.
    assert (Hlt : (t <? 12)%nat = true) by (apply Nat.ltb_lt; exact Ht).
    rewrite Hlt in Hcell. exact Hcell.
  - intros Ht.
    assert (Hge : (t <? 12)%nat = false) by (apply Nat.ltb_ge; exact Ht).
    rewrite Hge in Hcell.
    assert (Hlen : (t - 12 < length (column Inflation (cleaned DataReader now)))%nat).
    { assert (t < length (column Inflation (cleaned DataReader now)))%nat
        by (apply nth_error_Some; congruence).
      lia. }
    destruct (nth_error (column Inflation (cleaned DataReader now)) (t - 12))
      as [v12 |] eqn:Hv12; [| apply nth_error_None in Hv12; lia].
    exists v12. split; [reflexivity | exact Hcell].
Qed.

Lemma inflation_is_pct_change_witness :
  length (load_economic_data monthly_reader (datetime 2026 11 3))
  = length (dropna (ffill (monthly_reader start_date_1970 (datetime 2026 11 3))))
  /\ index (load_economic_data monthly_reader (datetime 2026 11 3))
     = map fst (dropna (ffill (monthly_reader start_date_1970 (datetime 2026 11 3))))
  /\ ((13 < 12)%nat ->
      nth_error (column Inflation
                   (load_economic_data monthly_reader (datetime 2026 11 3))) 13
      = Some NaN)
  /\ ((12 <= 13)%nat ->
      exists v12,
        nth_error (map (fun dr => CPIAUCSL (snd dr))
                     (dropna (ffill (monthly_reader start_date_1970
                                       (datetime 2026 11 3))))) (13 - 12)
        = Some v12
        /\ nth_error (column Inflation
                        (load_economic_data monthly_reader (datetime 2026 11 3))) 13
           = Some ((113 / v12 - 1) * 100)%float).
Proof.
  apply (inflation_is_pct_change monthly_reader (datetime 2026 11 3) 13 113%float).
  reflexivity.
Defined.

(** ** The progress values *)

Lemma frame_check_sound (n : Z) (prev p : int) (a : Z) :
  frame_check (Uint63.of_Z n) prev a = Some p ->
  frame_progress a 1 n = OK (Uint63.to_Z p)
  /\ Uint63.to_Z prev <= Uint63.to_Z p <= 100.
Proof.
  unfold frame_check, frame_progress, py_int, trunc_magnitude, float_of_int.
  rewrite Z.mul_1_r.
  set (v := (PrimFloat.of_uint63 (Uint63.of_Z a)
             / PrimFloat.of_uint63 (Uint63.of_Z n) * 100)%float).
  destruct (PrimFloat.is_nan v); [discriminate |].
  destruct (PrimFloat.is_infinity v); [discriminate |].
  destruct (v <? 0)%float; [discriminate |].
  destruct (PrimFloat.frshiftexp (PrimFloat.abs v)) as [f e].
  destruct (e <=? trunc_shift)%uint63; [| discriminate].
  destruct ((prev <=? PrimFloat.normfr_mantissa f >> (trunc_shift - e))%uint63
            && (PrimFloat.normfr_mantissa f >> (trunc_shift - e) <=? 100)%uint63)
    eqn:Hb; [| discriminate].
  intros Hp. injection Hp as Hp. subst p.
  apply andb_true_iff in Hb. destruct Hb as [Hlo Hhi].
  apply Uint63.leb_spec in Hlo. apply Uint63.leb_spec in Hhi.
  change (Uint63.to_Z 100) with 100 in Hhi.
  simpl bind. rewrite Z.min_r by lia.
  split; [reflexivity | lia].
Qed.

Lemma frames_check_sound (n : Z) (k : nat) :
  forall a prev,
    frames_check (Uint63.of_Z n) k a prev = true ->
    forall b c, a <= b -> b <= c -> c < a + Z.of_nat k ->
    exists pb pc,
      frame_progress b 1 n = OK pb /\ frame_progress c 1 n = OK pc
      /\ Uint63.to_Z prev <= pb /\ pb <= pc /\ pc <= 100.
Proof.
  induction k as [| k IH]; intros a prev Hchk b c Hab Hbc Hck; [lia |].
  simpl in Hchk.
  destruct (frame_check (Uint63.of_Z n) prev a) as [p |] eqn:Hf;
    [| discriminate Hchk].
  destruct (frame_check_sound n prev p a Hf) as [Hpa [Hlo Hhi]].
  destruct (Z.eq_dec b a) as [-> | Hne].
  - destruct (Z.eq_dec c a) as [-> | Hne'].
    + exists (Uint63.to_Z p), (Uint63.to_Z p). repeat split; try assumption; lia.
    + destruct (IH (a + 1) p Hchk c c) as [pc [pc' [Hpc [_ [Hle [Hcc Hle']]]]]];
        try lia.
      exists (Uint63.to_Z p), pc. repeat split; try assumption; lia.
  - destruct (IH (a + 1) p Hchk b c) as [pb [pc [Hpb [Hpc [Hle [Hbc' Hle']]]]]];
      try lia.
    exists pb, pc. repeat split; try assumption; lia.
Qed.

Lemma counts_check_sound (k : nat) :
  counts_check k = true ->
  forall n b c, 1 <= n -> n <= Z.of_nat k -> 0 <= b -> b <= c -> c < n ->
  exists pb pc,
    frame_progress b 1 n = OK pb /\ frame_progress c 1 n = OK pc
    /\ 0 <= pb /\ pb <= pc /\ pc <= 100.
Proof.
  induction k as [| k IH]; intros Hchk n b c Hn1 Hnk Hb Hbc Hcn; [lia |].
  simpl counts_check in Hchk. apply andb_true_iff in Hchk.
  destruct Hchk as [Hk Hrest].
  destruct (Z.eq_dec n (Z.of_nat (S k))) as [-> | Hne].
  - destruct (frames_check_sound (Z.of_nat (S k)) (S k) 0 0%uint63 Hk b c)
      as [pb [pc [Hpb [Hpc [Hlo [Hle Hhi]]]]]]; try lia.
    change (Uint63.to_Z 0%uint63) with 0 in Hlo.
    exists pb, pc. repeat split; assumption.
  - apply (IH Hrest n b c); lia.
Qed.

Lemma counts_check_max_dates : counts_check max_dates = true.
Proof. vm_compute. reflexivity. Qed.

Lemma frame_progress_offset (i stp n : Z) :
  frame_progress i stp n = frame_progress (i * stp) 1 n.
Proof. unfold frame_progress. rewrite Z.mul_1_r. reflexivity. Qed.

(** For up to [max_dates] dates every frame has a progress value, from
    0 to 100, and a later frame has a value at least as large. *)
Lemma frame_progress_monotone (n stp i j : Z) :
  1 <= n -> n <= Z.of_nat max_dates -> 1 <= stp ->
  0 <= i -> i <= j -> j * stp < n ->
  exists pi pj,
    frame_progress i stp n = OK pi /\ frame_progress j stp n = OK pj
    /\ 0 <= pi /\ pi <= pj /\ pj <= 100.
Proof.
  intros Hn1 Hn Hstp Hi Hij Hj.
  rewrite (frame_progress_offset i), (frame_progress_offset j).
  apply (counts_check_sound max_dates counts_check_max_dates n); try lia; nia.
Qed.

(** ** The quarterly date sequence *)

Lemma first_quarter_start_ge (t : Timestamp) :
  month_ord t <= first_quarter_start t.
Proof.
  unfold first_quarter_start. destruct (on_quarter_start t); [lia |].
  pose proof (Z.div_mod (month_ord t) 3 ltac:(lia)).
  pose proof (Z.mod_pos_bound (month_ord t) 3 ltac:(lia)).
  lia.
Qed.

Lemma len_date_range_QS (start end_ : Timestamp) :
  valid_timestamp start -> valid_timestamp end_ ->
  len (date_range_QS start end_) <= Z.of_nat max_dates.
Proof.
  intros [Hys [Hms _]] [Hye [Hme _]].
  unfold date_range_QS, len. rewrite length_map, length_seq.
  pose proof (first_quarter_start_ge start) as Hq.
  unfold month_ord in *.
  set (q0 := first_quarter_start start) in *.
  assert (Hdiv : (12 * year end_ + (month end_ - 1) - q0) / 3 < 2344).
  { apply Z.div_lt_upper_bound; lia. }
  change (Z.of_nat max_dates) with 2344.
  lia.
Qed.

Lemma date_range_QS_from_start (start end_ d : Timestamp) :
  1 <= month start <= 12 ->
  In d (date_range_QS start end_) -> ts_leb start d = true.
Proof.
  intros Hm Hin. unfold date_range_QS in Hin.
  rewrite in_map_iff in Hin. destruct Hin as [k [Hd _]]. subst d.
  set (q := first_quarter_start start + 3 * Z.of_nat k).
  assert (Hq : month_ord start <= q
               /\ (month_ord start = q -> day start = 1)).
  { unfold q, first_quarter_start.
    destruct (on_quarter_start start) eqn:E.
    - unfold on_quarter_start in E. apply andb_true_iff in E.
      destruct E as [E _]. apply Z.eqb_eq in E. split; lia.
    - pose proof (Z.div_mod (month_ord start) 3 ltac:(lia)).
      pose proof (Z.mod_pos_bound (month_ord start) 3 ltac:(lia)).
      split; lia. }
  clearbody q. destruct Hq as [Hle Heq].
  unfold month_ord in *.
  pose proof (Z.div_mod q 12 ltac:(lia)) as Hdm.
  pose proof (Z.mod_pos_bound q 12 ltac:(lia)) as Hmod.
  unfold ts_leb, of_month_ord. simpl.
  destruct (Z.ltb_spec (year start) (q / 12)) as [Hy | Hy]; [reflexivity |].
  assert (Hyeq : year start = q / 12) by lia.
  assert (E1 : (year start =? q / 12) = true) by (apply Z.eqb_eq; exact Hyeq).
  rewrite E1. simpl.
  destruct (Z.ltb_spec (month start) (q mod 12 + 1)) as [Hmlt | Hmge];
    [reflexivity |].
  assert (Hmeq : month start = q mod 12 + 1) by lia.
  assert (E2 : (month start =? q mod 12 + 1) = true) by (apply Z.eqb_eq; exact Hmeq).
  rewrite E2. simpl. apply Z.leb_le.
  assert (day start = 1) by (apply Heq; lia). lia.
Qed.

(** ** The animation loop *)

Lemma enumerate_from_In {A : Type} (l : list A) :
  forall i j a, In (j, a) (enumerate_from i l) -> i <= j < i + len l /\ In a l.
Proof.
  induction l as [| b tl IH]; intros i j a Hin; simpl in Hin; [contradiction |].
  assert (Hlen : len (b :: tl) = len tl + 1) by (unfold len; simpl length; lia).
  pose proof (len_nonneg tl).
  destruct Hin as [Heq | Hin].
  - injection Heq as -> ->. split; [lia | left; reflexivity].
  - destruct (IH _ _ _ Hin) as [Hr Ha]. split; [lia | right; exact Ha].
Qed.

Lemma progress_values_app (evs1 evs2 : list UIEvent) :
  progress_values (evs1 ++ evs2) = progress_values evs1 ++ progress_values evs2.
Proof.
  induction evs1 as [| ev tl IH]; simpl; [reflexivity |].
  destruct ev; simpl; rewrite IH; reflexivity.
Qed.

Lemma animation_loop_runs (data : DataFrame) (animation_speed stp n : Z)
    (frames : list (Z * Timestamp)) :
  (forall i d, In (i, d) frames ->
     rows_upto data d <> [] /\ exists p, frame_progress i stp n = OK p) ->
  exists evs,
    animation_loop data animation_speed stp n frames = OK evs
    /\ progress_values evs = map (progress_of stp n) frames.
Proof.
  induction frames as [| [i d] rest IH]; intros Hall.
  - exists []. split; reflexivity.
  - destruct (Hall i d (or_introl eq_refl)) as [Hrows [p Hp]].
    destruct (getitem_neg1_nonempty _ Hrows) as [r [Hr _]].
    destruct IH as [evs [Hevs Hvals]].
    { intros j e Hin. apply Hall. right. exact Hin. }
    cbn [animation_loop].
    rewrite create_animated_chart_cutoff, Hr, Hp, Hevs. cbn [bind].
    eexists. split; [reflexivity |].
    cbn [app show_metrics progress_values map]. rewrite Hvals.
    unfold progress_of at 2. cbn [fst]. rewrite Hp.
    reflexivity.
Qed.

Lemma progress_of_sorted (stp n : Z) (dates : list Timestamp) :
  forall i0,
    (forall i j, i0 <= i -> i <= j -> j < i0 + len dates ->
       exists pi pj,
         frame_progress i stp n = OK pi /\ frame_progress j stp n = OK pj
         /\ 0 <= pi /\ pi <= pj /\ pj <= 100) ->
    StronglySorted Z.le (map (progress_of stp n) (enumerate_from i0 dates))
    /\ Forall (fun p => 0 <= p <= 100)
              (map (progress_of stp n) (enumerate_from i0 dates)).
Proof.
  induction dates as [| d tl IH]; intros i0 Hmono; simpl.
  - split; constructor.
  - assert (Hlen : len (d :: tl) = len tl + 1) by (unfold len; simpl length; lia).
    pose proof (len_nonneg tl) as Hnn.
    destruct (IH (i0 + 1)) as [Hs Hb].
    { intros i j Hi Hij Hj. apply Hmono; lia. }
    assert (Hhead : Forall (fun p => progress_of stp n (i0, d) <= p)
                      (map (progress_of stp n) (enumerate_from (i0 + 1) tl))).
    { rewrite Forall_forall. intros p Hp. rewrite in_map_iff in Hp.
      destruct Hp as [[j e] [Hpj Hin]]. subst p.
      apply enumerate_from_In in Hin. destruct Hin as [Hj _].
      destruct (Hmono i0 j) as [pi [pj [Hpi [Hpj [_ [Hle _]]]]]]; try lia.
      unfold progress_of. simpl fst. rewrite Hpi, Hpj. exact Hle. }
    split.
    + constructor; assumption.
    + constructor; [| exact Hb].
      destruct (Hmono i0 i0) as [pi [pj [Hpi [_ [Hlo [Hle Hhi]]]]]]; try lia.
      unfold progress_of. simpl fst. rewrite Hpi. lia.
Qed.

Lemma sorted_between (l : list Z) :
  StronglySorted Z.le l -> Forall (fun p => 0 <= p <= 100) l ->
  Sorted Z.le (0 :: l ++ [100]).
Proof.
  intros Hs Hb. apply StronglySorted_Sorted.
  constructor.
  - induction Hs as [| a l Hs IH Hall].
    + repeat constructor.
    + inversion Hb as [| a' l' Ha Hb']; subst.
      simpl. constructor; [exact (IH Hb') |].
      apply Forall_app. split; [exact Hall |].
      constructor; [lia | constructor].
  - apply Forall_app. split.
    + eapply Forall_impl; [| exact Hb]. simpl. intros p Hp. lia.
    + constructor; [lia | constructor].
Qed.

Lemma slice_step_frames (dates : list Timestamp) (stp i : Z) (d : Timestamp) :
  1 <= stp ->
  In (i, d) (enumerate (slice_step dates stp)) ->
  0 <= i /\ i * stp < len dates /\ In d dates.
Proof.
  intros Hstp Hin. unfold enumerate in Hin.
  apply enumerate_from_In in Hin. destruct Hin as [Hi Hd].
  rewrite len_slice_step in Hi by exact Hstp.
  pose proof (len_nonneg dates) as Hn.
  pose proof (Z.div_mod (len dates + stp - 1) stp ltac:(lia)) as Hdm.
  pose proof (Z.mod_pos_bound (len dates + stp - 1) stp ltac:(lia)) as Hmod.
  split; [lia |]. split.
  - nia.
  - unfold slice_step in Hd. exact (stride_from_In _ _ _ _ Hd).
Qed.

Lemma rows_upto_nonempty (r : Row) (tl : DataFrame) (d : Timestamp) :
  ts_leb (date r) d = true -> rows_upto (r :: tl) d <> [].
Proof.
  intros H. unfold rows_upto. simpl. rewrite H. discriminate.
Qed.

(** C7: on a table with rows, dated by valid time stamps, and a speed
    from 1 to 10, the animation runs to its end; the values written to
    the progress bar start at 0, never decrease, and end with 100. *)
Theorem progress_never_decreases (data : DataFrame) (animation_speed : Z) :
  data <> [] ->
  Forall valid_timestamp (index data) ->
  1 <= animation_speed <= 10 ->
  exists evs,
    play_animation data animation_speed = OK evs
    /\ Sorted Z.le (progress_values evs)
    /\ hd_error (progress_values evs) = Some 0
    /\ last (progress_values evs) 0 = 100.
Proof.
  intros Hne Hvalid Hspeed.
  destruct data as [| r tl]; [contradiction |].
  destruct (getitem_neg1_nonempty (index (r :: tl))) as [e [He Hein]];
    [discriminate |].
  destruct (getitem_neg1_nonempty (r :: tl)) as [rl [Hrl _]]; [discriminate |].
  rewrite Forall_forall in Hvalid.
  assert (Hvs : valid_timestamp (date r)) by (apply Hvalid; left; reflexivity).
  assert (Hve : valid_timestamp e) by (apply Hvalid; exact Hein).
  set (dates := date_range_QS (date r) e).
  set (stp := step dates animation_speed).
  assert (Hstp : 1 <= stp) by apply step_ge_1.
  assert (Hlen : len dates <= Z.of_nat max_dates)
    by (apply len_date_range_QS; assumption).
  assert (Hframe : forall i d, In (i, d) (enumerate (slice_step dates stp)) ->
            0 <= i /\ i * stp < len dates /\ In d dates)
    by (intros i d; apply slice_step_frames; exact Hstp).
  destruct (animation_loop_runs (r :: tl) animation_speed stp (len dates)
              (enumerate (slice_step dates stp))) as [evs [Hevs Hvals]].
  { intros i d Hin. destruct (Hframe i d Hin) as [Hi [Hlt Hd]]. split.
    - apply rows_upto_nonempty.
      apply (date_range_QS_from_start (date r) e); [apply Hvs | exact Hd].
    - destruct (frame_progress_monotone (len dates) stp i i)
        as [p [_ [Hp _]]]; try lia.
      exists p. exact Hp. }
  destruct (progress_of_sorted stp (len dates) (slice_step dates stp) 0)
    as [Hsorted Hbounds].
  { intros i j Hi Hij Hj.
    assert (Hjn : j * stp < len dates).
    { rewrite len_slice_step in Hj by exact Hstp.
      pose proof (len_nonneg dates) as Hn.
      pose proof (Z.div_mod (len dates + stp - 1) stp ltac:(lia)) as Hdm.
      pose proof (Z.mod_pos_bound (len dates + stp - 1) stp ltac:(lia)) as Hmod.
      nia. }
    apply frame_progress_monotone; try lia; nia. }
  unfold play_animation.
  change (index (r :: tl)) with (date r :: index tl) at 1.
  rewrite getitem_0_cons. cbn [bind]. rewrite He. cbn [bind].
  fold dates. fold stp. rewrite Hevs. cbn [bind].
  rewrite create_animated_chart_default, He. cbn [bind]. rewrite Hrl. cbn [bind].
  eexists. split; [reflexivity |].
  assert (Hpv : progress_values
                  ([progress 0] ++ evs
                   ++ [plotly_chart (create_combined_chart (r :: tl)) no_key]
                   ++ show_metrics rl
                   ++ [progress 100; success "Animation complete!"])
                = 0 :: map (progress_of stp (len dates))
                         (enumerate (slice_step dates stp)) ++ [100]).
  { cbn [app progress_values]. rewrite progress_values_app, Hvals.
    reflexivity. }
  rewrite Hpv. split; [| split].
  - apply sorted_between; assumption.
  - reflexivity.
  - rewrite app_comm_cons. apply last_last.
Qed.

Lemma progress_never_decreases_witness :
  exists evs,
    play_animation two_years 5 = OK evs
    /\ Sorted Z.le (progress_values evs)
    /\ hd_error (progress_values evs) = Some 0
    /\ last (progress_values evs) 0 = 100.
Proof.
  apply (progress_never_decreases two_years 5).
  - discriminate.
  - repeat constructor; simpl; lia.
  - lia.
Defined.

(** * Further properties of the code *)

(** ** What the cleaning keeps *)

Lemma fill_not_nan (prev cur : float) :
  PrimFloat.is_nan prev = false -> PrimFloat.is_nan (fill prev cur) = false.
Proof.
  intros H. unfold fill. destruct (PrimFloat.is_nan cur) eqn:E; assumption.
Qed.

Lemma fill_row_complete (prev cur : RawRow) :
  complete prev = true -> complete (fill_row prev cur) = true.
Proof.
  unfold complete. rewrite !andb_true_iff, !negb_true_iff.
  intros [[[H1 H2] H3] H4]. simpl.
  repeat split; apply fill_not_nan; assumption.
Qed.

Lemma fill_reported (prev cur : float) :
  PrimFloat.is_nan cur = false -> fill prev cur = cur.
Proof. intros H. unfold fill. rewrite H. reflexivity. Qed.

Lemma fill_row_reported (prev cur : RawRow) :
  complete cur = true -> fill_row prev cur = cur.
Proof.
  unfold complete. rewrite !andb_true_iff, !negb_true_iff.
  intros [[[H1 H2] H3] H4]. unfold fill_row.
  rewrite !fill_reported by assumption. destruct cur; reflexivity.
Qed.

Lemma ffill_from_complete (rows : RawFrame) :
  forall prev, complete prev = true ->
  filter (fun dr => complete (snd dr)) (ffill_from prev rows)
  = ffill_from prev rows.
Proof.
  induction rows as [| [d r] tl IH]; intros prev Hp; simpl; [reflexivity |].
  rewrite (fill_row_complete prev r Hp).
  rewrite IH by (apply fill_row_complete; exact Hp). reflexivity.
Qed.

Lemma dropna_ffill_from_tail (rows : RawFrame) :
  forall prev, exists k,
    dropna (ffill_from prev rows) = skipn k (ffill_from prev rows).
Proof.
  unfold dropna.
  induction rows as [| [d r] tl IH]; intros prev; simpl.
  - exists 0%nat. reflexivity.
  - destruct (complete (fill_row prev r)) eqn:E.
    + exists 0%nat. simpl. rewrite ffill_from_complete by exact E. reflexivity.
    + destruct (IH (fill_row prev r)) as [k Hk].
      exists (S k). simpl. exact Hk.
Qed.

Lemma ffill_from_keeps_complete (rows : RawFrame) (d : Timestamp) (r : RawRow) :
  complete r = true -> In (d, r) rows ->
  forall prev, In (d, r) (ffill_from prev rows).
Proof.
  intros Hc. induction rows as [| [d' r'] tl IH]; intros Hin prev;
    [contradiction |].
  simpl. destruct Hin as [Heq | Hin].
  - injection Heq as -> ->. left. rewrite fill_row_reported by exact Hc.
    reflexivity.
  - right. apply IH. exact Hin.
Qed.

Lemma In_set_Inflation_row (data : DataFrame) (r0 : Row) :
  forall s, length s = length data -> In r0 data ->
  exists v,
    In (mkRow (date r0) (National_Debt r0) (Fed_Funds_Rate r0) (GDP r0) v)
       (set_Inflation data s).
Proof.
  induction data as [| r tl IH]; intros s Hlen Hin; [contradiction |].
  destruct s as [| v s]; [discriminate Hlen |].
  injection Hlen as Hlen. destruct Hin as [-> | Hin].
  - exists v. left. reflexivity.
  - destruct (IH s Hlen Hin) as [v' Hv']. exists v'. right. exact Hv'.
Qed.

(** X1: the cleaning drops rows at the head of the provider's answer
    only: for some [k], the table is the forward-filled answer without
    its first [k] rows, and its dates are the provider's dates without
    the first [k]. No row is dropped between two kept rows. *)
Theorem cleaning_drops_leading_rows
    (DataReader : Timestamp -> Timestamp -> RawFrame) (now : Timestamp) :
  exists k,
    cleaned DataReader now
    = set_columns (skipn k (ffill (DataReader start_date_1970 now)))
    /\ index (load_economic_data DataReader now)
       = skipn k (map fst (DataReader start_date_1970 now)).
Proof.
  destruct (dropna_ffill_from_tail (DataReader start_date_1970 now)
              (mkRawRow NaN NaN NaN NaN)) as [k Hk].
  fold (ffill (DataReader start_date_1970 now)) in Hk.
  exists k. split.
  - unfold cleaned. rewrite Hk. reflexivity.
  - destruct (load_economic_data_columns DataReader now) as [Hidx _].
    rewrite Hidx, cleaned_index, Hk, <- skipn_map.
    unfold ffill. rewrite index_ffill_from. reflexivity.
Qed.

(** X2: a row that the provider reports with no missing cell is in the
    table, with its date and its three values of debt, rate and GDP
    as reported. *)
Theorem complete_rows_survive
    (DataReader : Timestamp -> Timestamp -> RawFrame) (now : Timestamp)
    (d : Timestamp) (r : RawRow) :
  In (d, r) (DataReader start_date_1970 now) ->
  complete r = true ->
  exists v,
    In (mkRow d (GFDEBTN r) (FEDFUNDS r) (GDP_id r) v)
       (load_economic_data DataReader now).
Proof.
  intros Hin Hc.
  assert (Hclean : In (rename_row (d, r)) (cleaned DataReader now)).
  { unfold cleaned, set_columns. apply in_map. unfold dropna.
    apply filter_In. split; [| exact Hc].
    unfold ffill. apply ffill_from_keeps_complete; assumption. }
  unfold load_economic_data.
  apply (In_set_Inflation_row (cleaned DataReader now) (rename_row (d, r)));
    [apply length_scaled_pct_change | exact Hclean].
Qed.

Lemma complete_rows_survive_witness :
  exists v,
    In (mkRow (datetime 1970 4 1) 373 8.98 1051 v)
       (load_economic_data monthly_reader (datetime 2026 11 3)).
Proof.
  apply (complete_rows_survive monthly_reader (datetime 2026 11 3)
           (datetime 1970 4 1) (mkRawRow 373 8.98 1051 103)).
  - vm_compute. right. right. right. left. reflexivity.
  - reflexivity.
Defined.

(** A column that is missing in every row stays missing under [ffill]. *)
Lemma ffill_from_missing_column (c : RawRow -> float) (rows : RawFrame) :
  (forall p r, c (fill_row p r) = fill (c p) (c r)) ->
  (forall r, complete r = true -> PrimFloat.is_nan (c r) = false) ->
  Forall (fun dr => PrimFloat.is_nan (c (snd dr)) = true) rows ->
  forall prev, PrimFloat.is_nan (c prev) = true ->
  dropna (ffill_from prev rows) = [].
Proof.
  intros Hfill Hcomplete Hall. unfold dropna.
  induction Hall as [| [d r] tl Hr Htl IH]; intros prev Hprev; simpl;
    [reflexivity |].
  assert (Hnan : PrimFloat.is_nan (c (fill_row prev r)) = true).
  { rewrite Hfill. unfold fill. simpl in Hr. rewrite Hr. exact Hprev. }
  destruct (complete (fill_row prev r)) eqn:E.
  - apply Hcomplete in E. congruence.
  - apply IH. exact Hnan.
Qed.

Lemma complete_cells (r : RawRow) :
  complete r = true ->
  PrimFloat.is_nan (GFDEBTN r) = false /\ PrimFloat.is_nan (FEDFUNDS r) = false
  /\ PrimFloat.is_nan (GDP_id r) = false /\ PrimFloat.is_nan (CPIAUCSL r) = false.
Proof.
  unfold complete. rewrite !andb_true_iff, !negb_true_iff. tauto.
Qed.

Lemma data_loaded_nil : data_loaded [] = Raise IndexError.
Proof. reflexivity. Qed.

Lemma data_loaded_last (init : DataFrame) (last_row : Row) :
  data_loaded (init ++ [last_row])
  = OK (success (String.append "Data loaded through "
                   (strftime_B_Y (date last_row)))).
Proof.
  unfold data_loaded, index. rewrite getitem_map_last. reflexivity.
Qed.

(** X3: when one of the four series is missing in every row of the
    provider's answer, the table is empty and the load message that
    follows in both scripts raises [IndexError]. *)
Theorem missing_series_empties_table
    (DataReader : Timestamp -> Timestamp -> RawFrame) (now : Timestamp) :
  Forall (fun dr => PrimFloat.is_nan (GFDEBTN (snd dr)) = true)
         (DataReader start_date_1970 now)
  \/ Forall (fun dr => PrimFloat.is_nan (FEDFUNDS (snd dr)) = true)
            (DataReader start_date_1970 now)
  \/ Forall (fun dr => PrimFloat.is_nan (GDP_id (snd dr)) = true)
            (DataReader start_date_1970 now)
  \/ Forall (fun dr => PrimFloat.is_nan (CPIAUCSL (snd dr)) = true)
            (DataReader start_date_1970 now) ->
  load_economic_data DataReader now = []
  /\ data_loaded (load_economic_data DataReader now) = Raise IndexError.
Proof.
  intros H.
  assert (Hempty : dropna (ffill (DataReader start_date_1970 now)) = []).
  { unfold ffill.
    destruct H as [H | [H | [H | H]]].
    - apply (ffill_from_missing_column GFDEBTN); try assumption;
        [reflexivity | intros r Hr; apply complete_cells in Hr; tauto
        | reflexivity].
    - apply (ffill_from_missing_column FEDFUNDS); try assumption;
        [reflexivity | intros r Hr; apply complete_cells in Hr; tauto
        | reflexivity].
    - apply (ffill_from_missing_column GDP_id); try assumption;
        [reflexivity | intros r Hr; apply complete_cells in Hr; tauto
        | reflexivity].
    - apply (ffill_from_missing_column CPIAUCSL); try assumption;
        [reflexivity | intros r Hr; apply complete_cells in Hr; tauto
        | reflexivity]. }
  assert (Hload : load_economic_data DataReader now = []).
  { unfold load_economic_data, cleaned. rewrite Hempty. reflexivity. }
  rewrite Hload. split; [reflexivity | apply data_loaded_nil].
Qed.

Lemma missing_series_empties_table_witness :
  load_economic_data no_gdp_reader (datetime 2026 11 3) = []
  /\ data_loaded (load_economic_data no_gdp_reader (datetime 2026 11 3))
     = Raise IndexError.
Proof.
  apply (missing_series_empties_table no_gdp_reader (datetime 2026 11 3)).
  right. right. left. repeat constructor.
Defined.

(** X4: the transform of the Inflation column changes nothing else: the
    table has the rows of the cleaned frame, and its National Debt, Fed
    Funds Rate and GDP columns are the forward-filled GFDEBTN, FEDFUNDS
    and GDP series of the kept rows, by position. *)
Theorem transform_keeps_other_columns
    (DataReader : Timestamp -> Timestamp -> RawFrame) (now : Timestamp) :
  length (load_economic_data DataReader now)
  = length (dropna (ffill (DataReader start_date_1970 now)))
  /\ column National_Debt (load_economic_data DataReader now)
     = map (fun dr => GFDEBTN (snd dr))
           (dropna (ffill (DataReader start_date_1970 now)))
  /\ column Fed_Funds_Rate (load_economic_data DataReader now)
     = map (fun dr => FEDFUNDS (snd dr))
           (dropna (ffill (DataReader start_date_1970 now)))
  /\ column GDP (load_economic_data DataReader now)
     = map (fun dr => GDP_id (snd dr))
           (dropna (ffill (DataReader start_date_1970 now))).
Proof.
  destruct (load_economic_data_columns DataReader now)
    as [_ [Hd [Hr [Hg _]]]].
  split.
  - rewrite length_load_economic_data. unfold cleaned, set_columns.
    apply length_map.
  - rewrite Hd, Hr, Hg. unfold cleaned, column, set_columns.
    rewrite !map_map. repeat split; reflexivity.
Qed.

(** ** The load message and the year-range metrics *)

(** X5: the load message raises [IndexError] exactly on the empty
    table; on a table with rows it names the month and the year of the
    last row. *)
Theorem data_loaded_names_last_row (data : DataFrame) :
  (data_loaded data = Raise IndexError <-> data = [])
  /\ (forall init last_row,
        data = init ++ [last_row] ->
        data_loaded data
        = OK (success (String.append "Data loaded through "
                (String.append (month_name (month (date last_row)))
                   (String.append " "
                      (NilZero.string_of_int
                         (Z.to_int (year (date last_row)))))))))
  /\ data_loaded two_years = OK (success "Data loaded through January 1971").
Proof.
  split; [| split].
  - split.
    + intros H. destruct data as [| r tl]; [reflexivity |].
      destruct (@exists_last _ (r :: tl)) as [init [last_row Heq]];
        [discriminate |].
      rewrite Heq, data_loaded_last in H. discriminate H.
    + intros ->. apply data_loaded_nil.
  - intros init last_row ->. rewrite data_loaded_last. reflexivity.
  - reflexivity.
Qed.

Lemma filtered_data_last (init : DataFrame) (last_row : Row) (year_range : Z * Z) :
  fst year_range <= year (date last_row) <= snd year_range ->
  filtered_data (init ++ [last_row]) year_range
  = filtered_data init year_range ++ [last_row].
Proof.
  intros [Hlo Hhi]. unfold filtered_data. rewrite filter_app. simpl.
  apply Z.leb_le in Hlo. apply Z.leb_le in Hhi. rewrite Hlo, Hhi. reflexivity.
Qed.

(** X6: whenever the year of the table's last row lies in the selected
    year range, the four metrics are the values of that last row,
    whatever the other rows and the lower bound of the range are. *)
Theorem metrics_show_last_row (init : DataFrame) (last_row : Row)
    (year_range : Z * Z) :
  fst year_range <= year (date last_row) <= snd year_range ->
  data_exploration (init ++ [last_row]) year_range =
  OK [ metric "Current National Debt" "${:,.0f} Billion" (National_Debt last_row);
       metric "Current Fed Rate" "{:.2f}%" (Fed_Funds_Rate last_row);
       metric "Current GDP" "${:,.0f} Billion" (GDP last_row);
       metric "Current Inflation" "{:.2f}%" (Inflation last_row) ].
Proof.
  intros H. unfold data_exploration.
  rewrite filtered_data_last by exact H. apply display_metrics_last.
Qed.

Lemma metrics_show_last_row_witness :
  data_exploration ([jan1970] ++ [jan1971]) (1970, 2026) =
  OK [ metric "Current National Debt" "${:,.0f} Billion" (National_Debt jan1971);
       metric "Current Fed Rate" "{:.2f}%" (Fed_Funds_Rate jan1971);
       metric "Current GDP" "${:,.0f} Billion" (GDP jan1971);
       metric "Current Inflation" "{:.2f}%" (Inflation jan1971) ].
Proof.
  apply (metrics_show_last_row [jan1970] jan1971 (1970, 2026)).
  simpl. lia.
Defined.

(** X7: in [economic_dashboard.py] the year range never reaches the
    chart: on a table with rows, the load message and the chart of the
    whole table are shown for every year range, and the run ends in
    [IndexError] exactly when the range selects no row, after the chart
    is shown. *)
Theorem chart_ignores_year_range (data : DataFrame) (year_range : Z * Z) :
  data <> [] ->
  exists msg,
    data_loaded data = OK msg
    /\ firstn 2 (fst (dashboard_run data year_range))
       = [msg; plotly_chart (create_combined_chart data) no_key]
    /\ (snd (dashboard_run data year_range) = Some IndexError
        <-> filtered_data data year_range = [])
    /\ (snd (dashboard_run data year_range) = None
        <-> filtered_data data year_range <> []).
Proof.
  intros Hne.
  destruct (exists_last Hne) as [init [last_row Heq]].
  exists (success (String.append "Data loaded through "
                     (strftime_B_Y (date last_row)))).
  assert (Hmsg : data_loaded data
                 = OK (success (String.append "Data loaded through "
                                  (strftime_B_Y (date last_row)))))
    by (rewrite Heq; apply data_loaded_last).
  split; [exact Hmsg |].
  unfold dashboard_run. rewrite Hmsg. unfold data_exploration.
  destruct (filtered_data data year_range) as [| r tl] eqn:E.
  - rewrite display_metrics_nil. cbn [fst snd firstn].
    split; [reflexivity |]. split.
    + split; reflexivity.
    + split; [discriminate | intros H; contradiction].
  - destruct (@exists_last _ (r :: tl)) as [init' [last' Heq']];
      [discriminate |].
    rewrite Heq', display_metrics_last. cbn [fst snd firstn app].
    split; [reflexivity |]. split.
    + split; [discriminate | intros H; destruct init'; discriminate H].
    + split; [intros _; destruct init'; discriminate | reflexivity].
Qed.

Lemma chart_ignores_year_range_witness :
  exists msg,
    data_loaded only_1980 = OK msg
    /\ firstn 2 (fst (dashboard_run only_1980 (1970, 1975)))
       = [msg; plotly_chart (create_combined_chart only_1980) no_key]
    /\ (snd (dashboard_run only_1980 (1970, 1975)) = Some IndexError
        <-> filtered_data only_1980 (1970, 1975) = [])
    /\ (snd (dashboard_run only_1980 (1970, 1975)) = None
        <-> filtered_data only_1980 (1970, 1975) <> []).
Proof.
  apply (chart_ignores_year_range only_1980 (1970, 1975)).
  discriminate.
Defined.

(** ** The two renderers *)

(** X8: whenever the animated renderer returns a chart, with or without
    a cutoff, it is the chart that [create_combined_chart] of the other
    script builds from the same table; with a cutoff it always returns. *)
Theorem animated_chart_is_combined_chart (data : DataFrame)
    (end_date : option Timestamp) (fig : Figure.t) :
  create_animated_chart data end_date = OK fig ->
  fig = create_combined_chart data
  /\ forall cutoff, create_animated_chart data (Some cutoff) = OK fig.
Proof.
  intros H.
  assert (Hfig : fig = create_combined_chart data).
  { destruct end_date as [d |].
    - rewrite create_animated_chart_cutoff in H. injection H as H.
      symmetry. exact H.
    - rewrite create_animated_chart_default in H.
      apply bind_OK in H. destruct H as [d [_ H]]. injection H as H.
      symmetry. exact H. }
  split; [exact Hfig |].
  intros cutoff. rewrite Hfig. apply create_animated_chart_cutoff.
Qed.

Lemma animated_chart_is_combined_chart_witness :
  create_combined_chart two_years = create_combined_chart two_years
  /\ forall cutoff,
       create_animated_chart two_years (Some cutoff)
       = OK (create_combined_chart two_years).
Proof.
  apply (animated_chart_is_combined_chart two_years None
           (create_combined_chart two_years)).
  reflexivity.
Defined.

(** ** The frames of the animation *)

Lemma ts_lt_le (a b : Timestamp) : ts_lt a b -> ts_le a b.
Proof. intros H. ts_order. Qed.

Lemma ts_le_refl (a : Timestamp) : ts_le a a.
Proof. ts_order. Qed.

Lemma StronglySorted_app_last {A : Type} (R : A -> A -> Prop) (l : list A) (a : A) :
  StronglySorted R (l ++ [a]) -> forall b, In b l -> R b a.
Proof.
  induction l as [| c l IH]; intros Hs b Hb; [contradiction |].
  simpl in Hs. inversion Hs as [| c' l' Hs' Hall]; subst.
  destruct Hb as [-> | Hb].
  - rewrite Forall_forall in Hall. apply Hall.
    apply in_or_app. right. left. reflexivity.
  - exact (IH Hs' b Hb).
Qed.

Lemma getitem_neg1_app {A : Type} (l : list A) (a : A) :
  getitem l (-1) = OK a -> exists init, l = init ++ [a].
Proof.
  intros H. destruct l as [| b tl]; [rewrite getitem_nil in H; discriminate H |].
  destruct (@exists_last _ (b :: tl)) as [init [c Heq]]; [discriminate |].
  rewrite Heq, getitem_last in H. injection H as ->.
  exists init. exact Heq.
Qed.

(** X9: the row whose values a frame shows, the last of the rows dated
    at or before the frame's date, is a row of the table dated at or
    before that date; when the table's dates are strictly increasing no
    row dated at or before the frame's date is later than it. *)
Theorem frame_metrics_latest_row (data : DataFrame) (d : Timestamp)
    (current_data : Row) :
  getitem (rows_upto data d) (-1) = OK current_data ->
  In current_data data
  /\ ts_le (date current_data) d
  /\ (Sorted ts_lt (index data) ->
      forall r, In r data -> ts_le (date r) d ->
                ts_le (date r) (date current_data)).
Proof.
  intros H. apply getitem_neg1_app in H. destruct H as [init Heq].
  assert (Hin : In current_data (rows_upto data d)).
  { rewrite Heq. apply in_or_app. right. left. reflexivity. }
  unfold rows_upto in Hin. apply filter_In in Hin. destruct Hin as [Hin Hle].
  split; [exact Hin |]. split; [exact Hle |].
  intros Hsorted r Hr Hrd.
  assert (Hss : StronglySorted ts_lt (map date (rows_upto data d))).
  { unfold rows_upto. apply StronglySorted_map_filter.
    apply Sorted_StronglySorted; [| exact Hsorted].
    intros a b c. apply ts_lt_trans. }
  assert (Hr' : In r (rows_upto data d)).
  { unfold rows_upto. apply filter_In. split; assumption. }
  rewrite Heq in Hr', Hss. rewrite map_app in Hss. simpl in Hss.
  apply in_app_or in Hr'. destruct Hr' as [Hr' | [-> | []]].
  - apply ts_lt_le.
    apply (StronglySorted_app_last ts_lt (map date init) (date current_data) Hss).
    apply in_map. exact Hr'.
  - apply ts_le_refl.
Qed.

Lemma frame_metrics_latest_row_witness :
  In jan1970 two_years
  /\ ts_le (date jan1970) (datetime 1970 7 1)
  /\ (Sorted ts_lt (index two_years) ->
      forall r, In r two_years -> ts_le (date r) (datetime 1970 7 1) ->
                ts_le (date r) (date jan1970)).
Proof.
  apply (frame_metrics_latest_row two_years (datetime 1970 7 1) jan1970).
  reflexivity.
Defined.

(** X10: whatever the number of dates, a run at speed [speed >= 1]
    plays fewer than [100 * speed] frames. *)
Theorem frame_count_bounded (dates : list Timestamp) (animation_speed : Z) :
  1 <= animation_speed ->
  len (slice_step dates (step dates animation_speed)) < 100 * animation_speed.
Proof.
  intros Hs.
  rewrite len_slice_step by apply step_ge_1.
  pose proof (len_nonneg dates) as Hn.
  unfold step.
  set (n := len dates) in *. set (s := 50 * animation_speed).
  assert (Hs50 : 50 <= s) by (unfold s; lia).
  pose proof (Z.div_mod n s ltac:(lia)) as Hdm.
  pose proof (Z.mod_pos_bound n s ltac:(lia)) as Hmod.
  assert (Hq : 0 <= n / s) by (apply Z.div_pos; lia).
  apply Z.div_lt_upper_bound; [lia |].
  replace (100 * animation_speed) with (2 * s) by (unfold s; lia).
  destruct (Z.max_spec 1 (n / s)) as [[Hlt ->] | [Hge ->]]; nia.
Qed.

Lemma frame_count_bounded_witness :
  len (slice_step dates_1970_2026 (step dates_1970_2026 1)) < 100 * 1.
Proof. apply (frame_count_bounded dates_1970_2026 1). lia. Defined.

Lemma stride_from_1 {A : Type} (l : list A) : stride_from 0 1 l = l.
Proof.
  induction l as [| a tl IH]; simpl; [reflexivity |]. rewrite IH. reflexivity.
Qed.

(** X11: with fewer than [100 * speed] dates the stride is 1 and every
    quarterly date is a frame. *)
Theorem short_range_plays_every_date (dates : list Timestamp)
    (animation_speed : Z) :
  1 <= animation_speed ->
  len dates < 100 * animation_speed ->
  step dates animation_speed = 1
  /\ slice_step dates (step dates animation_speed) = dates.
Proof.
  intros Hs Hn.
  assert (Hstep : step dates animation_speed = 1).
  { unfold step.
    assert (len dates / (50 * animation_speed) < 2)
      by (apply Z.div_lt_upper_bound; lia).
    assert (0 <= len dates / (50 * animation_speed))
      by (apply Z.div_pos; [apply len_nonneg | lia]).
    lia. }
  split; [exact Hstep |].
  rewrite Hstep. unfold slice_step. apply stride_from_1.
Qed.

Lemma short_range_plays_every_date_witness :
  step dates_1970_2026 5 = 1
  /\ slice_step dates_1970_2026 (step dates_1970_2026 5) = dates_1970_2026.
Proof.
  apply (short_range_plays_every_date dates_1970_2026 5); [lia |].
  vm_compute. reflexivity.
Defined.

(** ** The dates of the frames *)

Lemma of_month_ord_lt (q q' : Z) :
  q < q' -> ts_lt (of_month_ord q) (of_month_ord q').
Proof.
  intros H. unfold ts_lt, ts_ltb, of_month_ord. simpl.
  pose proof (Z.div_mod q 12 ltac:(lia)) as Hq.
  pose proof (Z.mod_pos_bound q 12 ltac:(lia)) as Hqm.
  pose proof (Z.div_mod q' 12 ltac:(lia)) as Hq'.
  pose proof (Z.mod_pos_bound q' 12 ltac:(lia)) as Hqm'.
  destruct (Z.ltb_spec (q / 12) (q' / 12)) as [Hy | Hy]; [reflexivity |].
  assert (Hyeq : q / 12 = q' / 12) by lia.
  assert (E1 : (q / 12 =? q' / 12) = true) by (apply Z.eqb_eq; exact Hyeq).
  rewrite E1. simpl.
  assert (E2 : (q mod 12 + 1 <? q' mod 12 + 1) = true) by (apply Z.ltb_lt; lia).
  rewrite E2. reflexivity.
Qed.

Lemma quarter_starts_sorted (q0 : Z) (count : nat) :
  forall a,
    StronglySorted ts_lt
      (map (fun k => of_month_ord (q0 + 3 * Z.of_nat k)) (seq a count)).
Proof.
  induction count as [| c IH]; intros a; cbn [map seq]; constructor;
    [apply IH |].
  rewrite Forall_forall. intros d Hd. rewrite in_map_iff in Hd.
  destruct Hd as [k [<- Hk]]. apply in_seq in Hk.
  apply of_month_ord_lt.
  assert (Hak : Z.of_nat a < Z.of_nat k) by (apply Nat2Z.inj_lt; lia).
  lia.
Qed.

Lemma stride_from_sorted {A : Type} (R : A -> A -> Prop) (stp : nat) (l : list A) :
  StronglySorted R l -> forall skip, StronglySorted R (stride_from skip stp l).
Proof.
  induction 1 as [| a l Hs IH Hall]; intros skip; simpl; [constructor |].
  destruct skip as [| k]; [| apply IH].
  constructor; [apply IH |].
  rewrite Forall_forall in *. intros b Hb.
  apply Hall. exact (stride_from_In _ _ _ _ Hb).
Qed.

Lemma first_quarter_start_mod3 (t : Timestamp) :
  first_quarter_start t mod 3 = 0.
Proof.
  unfold first_quarter_start, on_quarter_start, month_ord.
  destruct ((day t =? 1) && ((month t - 1) mod 3 =? 0)) eqn:E.
  - apply andb_true_iff in E. destruct E as [_ E]. apply Z.eqb_eq in E.
    pose proof (Z.div_mod (month t - 1) 3 ltac:(lia)) as Hm.
    replace (12 * year t + (month t - 1))
      with (0 + (4 * year t + (month t - 1) / 3) * 3) by lia.
    rewrite Z.mod_add by lia. reflexivity.
  - replace (3 * ((12 * year t + (month t - 1)) / 3) + 3)
      with (0 + ((12 * year t + (month t - 1)) / 3 + 1) * 3) by lia.
    rewrite Z.mod_add by lia. reflexivity.
Qed.

Lemma of_month_ord_on_quarter_start (q : Z) :
  q mod 3 = 0 -> on_quarter_start (of_month_ord q) = true.
Proof.
  intros H. unfold on_quarter_start, of_month_ord. simpl.
  replace (q mod 12 + 1 - 1) with (q mod 12) by lia.
  assert (Hm : (q mod 12) mod 3 = 0).
  { pose proof (Z.div_mod q 12 ltac:(lia)) as Hq.
    pose proof (Z.div_mod q 3 ltac:(lia)) as Hq3.
    replace (q mod 12) with (q + (- 4 * (q / 12)) * 3) by lia.
    rewrite Z.mod_add by lia. exact H. }
  rewrite Hm. reflexivity.
Qed.

Lemma date_range_QS_upto_end (start end_ d : Timestamp) :
  1 <= month end_ <= 12 -> 1 <= day end_ ->
  In d (date_range_QS start end_) -> ts_leb d end_ = true.
Proof.
  intros Hm Hd Hin. unfold date_range_QS in Hin.
  rewrite in_map_iff in Hin. destruct Hin as [k [<- Hk]].
  apply in_seq in Hk.
  set (q0 := first_quarter_start start) in *.
  assert (Hq : q0 + 3 * Z.of_nat k <= month_ord end_).
  { pose proof (Z.div_mod (month_ord end_ - q0) 3 ltac:(lia)) as Hdm.
    pose proof (Z.mod_pos_bound (month_ord end_ - q0) 3 ltac:(lia)) as Hmod.
    lia. }
  set (q := q0 + 3 * Z.of_nat k) in *. clearbody q.
  unfold month_ord in Hq.
  pose proof (Z.div_mod q 12 ltac:(lia)) as Hdm.
  pose proof (Z.mod_pos_bound q 12 ltac:(lia)) as Hmod.
  unfold ts_leb, of_month_ord. simpl.
  destruct (Z.ltb_spec (q / 12) (year end_)) as [Hy | Hy]; [reflexivity |].
  assert (Hyeq : q / 12 = year end_) by lia.
  assert (E1 : (q / 12 =? year end_) = true) by (apply Z.eqb_eq; exact Hyeq).
  rewrite E1. simpl.
  destruct (Z.ltb_spec (q mod 12 + 1) (month end_)) as [Hmlt | Hmge];
    [reflexivity |].
  assert (E2 : (q mod 12 + 1 =? month end_) = true) by (apply Z.eqb_eq; lia).
  rewrite E2. simpl. apply Z.leb_le. exact Hd.
Qed.

(** X12: the dates of the frames, the quarterly dates between the first
    and the last date of the table taken at any stride, are strictly
    increasing; each is a first of January, April, July or October and
    lies between the two dates, both included. *)
Theorem frame_dates_within_table (start end_ : Timestamp) (stp : Z) :
  1 <= month start <= 12 -> 1 <= month end_ <= 12 -> 1 <= day end_ ->
  StronglySorted ts_lt (slice_step (date_range_QS start end_) stp)
  /\ Forall (fun d => ts_le start d /\ ts_le d end_
                      /\ on_quarter_start d = true)
            (slice_step (date_range_QS start end_) stp).
Proof.
  intros Hms Hme Hde. split.
  - unfold slice_step. apply stride_from_sorted.
    unfold date_range_QS. apply quarter_starts_sorted.
  - rewrite Forall_forall. intros d Hd.
    unfold slice_step in Hd. apply stride_from_In in Hd.
    split; [exact (date_range_QS_from_start start end_ d Hms Hd) |].
    split; [exact (date_range_QS_upto_end start end_ d Hme Hde Hd) |].
    unfold date_range_QS in Hd. rewrite in_map_iff in Hd.
    destruct Hd as [k [<- _]].
    apply of_month_ord_on_quarter_start.
    replace (first_quarter_start start + 3 * Z.of_nat k)
      with (first_quarter_start start + Z.of_nat k * 3) by lia.
    rewrite Z.mod_add by lia. apply first_quarter_start_mod3.
Qed.

Lemma frame_dates_within_table_witness :
  StronglySorted ts_lt
    (slice_step (date_range_QS (datetime 1970 1 1) (datetime 2026 4 1)) 4)
  /\ Forall (fun d => ts_le (datetime 1970 1 1) d /\ ts_le d (datetime 2026 4 1)
                      /\ on_quarter_start d = true)
            (slice_step (date_range_QS (datetime 1970 1 1) (datetime 2026 4 1)) 4).
Proof.
  apply (frame_dates_within_table (datetime 1970 1 1) (datetime 2026 4 1) 4);
    simpl; lia.
Defined.

(** ** What a run of the animation shows *)

Lemma charts_app (evs1 evs2 : list UIEvent) :
  charts (evs1 ++ evs2) = charts evs1 ++ charts evs2.
Proof.
  induction evs1 as [| ev tl IH]; simpl; [reflexivity |].
  destruct ev; simpl; rewrite IH; reflexivity.
Qed.

Lemma sleeps_app (evs1 evs2 : list UIEvent) :
  sleeps (evs1 ++ evs2) = sleeps evs1 ++ sleeps evs2.
Proof.
  induction evs1 as [| ev tl IH]; simpl; [reflexivity |].
  destruct ev; simpl; rewrite IH; reflexivity.
Qed.

(** A run that ends without an exception, taken apart. *)
Lemma play_animation_OK (data : DataFrame) (animation_speed : Z)
    (evs : list UIEvent) :
  play_animation data animation_speed = OK evs ->
  exists r0 tl e init last_row frame_evs,
    data = r0 :: tl
    /\ getitem (index data) (-1) = OK e
    /\ data = init ++ [last_row]
    /\ animation_loop data animation_speed
         (step (date_range_QS (date r0) e) animation_speed)
         (len (date_range_QS (date r0) e))
         (enumerate (slice_step (date_range_QS (date r0) e)
                       (step (date_range_QS (date r0) e) animation_speed)))
       = OK frame_evs
    /\ evs = [progress 0] ++ frame_evs
             ++ [plotly_chart (create_combined_chart data) no_key]
             ++ show_metrics last_row
             ++ [progress 100; success "Animation complete!"].
Proof.
  intros H. unfold play_animation in H.
  destruct data as [| r0 tl]; [discriminate H |].
  change (index (r0 :: tl)) with (date r0 :: index tl) in H at 1.
  rewrite getitem_0_cons in H. cbn [bind] in H.
  apply bind_OK in H. destruct H as [e [He H]].
  apply bind_OK in H. destruct H as [frame_evs [Hloop H]].
  rewrite create_animated_chart_default, He in H. cbn [bind] in H.
  apply bind_OK in H. destruct H as [last_row [Hlast H]].
  injection H as <-.
  apply getitem_neg1_app in Hlast. destruct Hlast as [init Hinit].
  exists r0, tl, e, init, last_row, frame_evs.
  repeat split; try assumption; reflexivity.
Qed.

(** X13: in a run that ends without an exception every chart drawn is
    the same figure, the chart of the whole table: one per pause and
    one more at the end; every pause lasts [0.5 / speed] seconds; the
    progress bar is written once per pause and twice more. *)
Theorem animation_redraws_same_chart (data : DataFrame) (animation_speed : Z)
    (evs : list UIEvent) :
  play_animation data animation_speed = OK evs ->
  charts evs = repeat (create_combined_chart data) (S (length (sleeps evs)))
  /\ sleeps evs = repeat (0.5 / float_of_int animation_speed)%float
                         (length (sleeps evs))
  /\ length (progress_values evs) = (length (sleeps evs) + 2)%nat.
Proof.
  intros H. apply play_animation_OK in H.
  destruct H as [r0 [tl [e [init [last_row [fevs [_ [_ [_ [Hloop ->]]]]]]]]]].
  apply animation_loop_events in Hloop. destruct Hloop as [Hc [Hs Hv]].
  set (frames := enumerate _) in *.
  assert (Hsl : sleeps ([progress 0] ++ fevs
                        ++ [plotly_chart (create_combined_chart data) no_key]
                        ++ show_metrics last_row
                        ++ [progress 100; success "Animation complete!"])
                = sleeps fevs).
  { cbn [app sleeps]. rewrite sleeps_app. cbn [app show_metrics sleeps].
    apply app_nil_r. }
  rewrite Hsl, Hs, repeat_length. split; [| split].
  - cbn [app charts]. rewrite charts_app, Hc. cbn [app show_metrics charts].
    rewrite <- repeat_cons. reflexivity.
  - reflexivity.
  - cbn [app progress_values]. rewrite progress_values_app, Hv.
    cbn [app show_metrics progress_values length].
    rewrite length_app, length_map. cbn [length]. lia.
Qed.

Lemma animation_redraws_same_chart_witness :
  charts two_years_run
  = repeat (create_combined_chart two_years) (S (length (sleeps two_years_run)))
  /\ sleeps two_years_run
     = repeat (0.5 / float_of_int 5)%float (length (sleeps two_years_run))
  /\ length (progress_values two_years_run)
     = (length (sleeps two_years_run) + 2)%nat.
Proof.
  apply (animation_redraws_same_chart two_years 5 two_years_run).
  vm_compute. reflexivity.
Defined.

(** X14: a run that ends without an exception ends with the chart of
    the whole table, the four values of the table's last row, the
    progress value 100 and the completion message, in this order. *)
Theorem animation_ends_on_last_row (data : DataFrame) (animation_speed : Z)
    (evs : list UIEvent) :
  play_animation data animation_speed = OK evs ->
  exists before init last_row,
    data = init ++ [last_row]
    /\ evs = before
             ++ [ plotly_chart (create_combined_chart data) no_key;
                  metric "National Debt" "${:,.0f}B" (National_Debt last_row);
                  metric "Fed Rate" "{:.2f}%" (Fed_Funds_Rate last_row);
                  metric "GDP" "${:,.0f}B" (GDP last_row);
                  metric "Inflation" "{:.2f}%" (Inflation last_row);
                  progress 100;
                  success "Animation complete!" ].
Proof.
  intros H. apply play_animation_OK in H.
  destruct H as [r0 [tl [e [init [last_row [fevs [_ [_ [Hinit [_ ->]]]]]]]]]].
  exists ([progress 0] ++ fevs), init, last_row.
  split; [exact Hinit |].
  rewrite <- app_assoc. reflexivity.
Qed.

Lemma animation_ends_on_last_row_witness :
  exists before init last_row,
    two_years = init ++ [last_row]
    /\ two_years_run
       = before
         ++ [ plotly_chart (create_combined_chart two_years) no_key;
              metric "National Debt" "${:,.0f}B" (National_Debt last_row);
              metric "Fed Rate" "{:.2f}%" (Fed_Funds_Rate last_row);
              metric "GDP" "${:,.0f}B" (GDP last_row);
              metric "Inflation" "{:.2f}%" (Inflation last_row);
              progress 100;
              success "Animation complete!" ].
Proof.
  apply (animation_ends_on_last_row two_years 5 two_years_run).
  vm_compute. reflexivity.
Defined.

(** X15: the number of pauses of a run is the number of frames: the
    number of quarterly dates between the first and the last date of
    the table, divided by the stride and rounded up. *)
Theorem animation_pauses_once_per_frame (r0 : Row) (tl : DataFrame)
    (e : Timestamp) (animation_speed : Z) (evs : list UIEvent) :
  getitem (index (r0 :: tl)) (-1) = OK e ->
  play_animation (r0 :: tl) animation_speed = OK evs ->
  len (sleeps evs)
  = (len (date_range_QS (date r0) e)
     + step (date_range_QS (date r0) e) animation_speed - 1)
    / step (date_range_QS (date r0) e) animation_speed.
Proof.
  intros He H. apply play_animation_OK in H.
  destruct H as [r0' [tl' [e' [init [last_row [fevs [Hd [He' [_ [Hloop ->]]]]]]]]]].
  injection Hd as <- <-. rewrite He in He'. injection He' as <-.
  apply animation_loop_events in Hloop. destruct Hloop as [_ [Hs _]].
  cbn [app sleeps]. rewrite sleeps_app. cbn [app show_metrics sleeps].
  rewrite app_nil_r, Hs. unfold len at 1. rewrite repeat_length.
  rewrite <- len_slice_step by apply step_ge_1.
  unfold enumerate, len.
  assert (Hen : forall (A : Type) (l : list A) i,
             length (enumerate_from i l) = length l).
  { intros A l. induction l as [| a l' IH]; intros i; simpl;
      [reflexivity | rewrite IH; reflexivity]. }
  rewrite Hen. reflexivity.
Qed.

Lemma animation_pauses_once_per_frame_witness :
  len (sleeps two_years_run)
  = (len (date_range_QS (date jan1970) (datetime 1971 1 1))
     + step (date_range_QS (date jan1970) (datetime 1971 1 1)) 5 - 1)
    / step (date_range_QS (date jan1970) (datetime 1971 1 1)) 5.
Proof.
  apply (animation_pauses_once_per_frame jan1970 [jan1971] (datetime 1971 1 1)
           5 two_years_run).
  - reflexivity.
  - vm_compute. reflexivity.
Defined.

(** ** The progress bar before the end *)

Lemma ends_check_sound (k : nat) :
  ends_check_upto k = true ->
  forall n, 1 <= n -> n <= Z.of_nat k ->
  frame_progress 0 1 n = OK 0
  /\ exists p, frame_progress (n - 1) 1 n = OK p /\ p <= 99.
Proof.
  induction k as [| k IH]; intros Hchk n Hn1 Hnk; [lia |].
  cbn [ends_check_upto] in Hchk. apply andb_true_iff in Hchk.
  destruct Hchk as [Hk Hrest].
  destruct (Z.eq_dec n (Z.of_nat (S k))) as [-> | Hne];
    [| apply IH; [exact Hrest | lia | lia]].
  unfold ends_check in Hk.
  destruct (frame_progress 0 1 (Z.of_nat (S k))) as [p0 |]; [| discriminate Hk].
  destruct (frame_progress (Z.of_nat (S k) - 1) 1 (Z.of_nat (S k))) as [p1 |];
    [| discriminate Hk].
  apply andb_true_iff in Hk. destruct Hk as [H0 H1].
  apply Z.eqb_eq in H0. apply Z.leb_le in H1. subst p0.
  split; [reflexivity |]. exists p1. split; [reflexivity | exact H1].
Qed.

Lemma ends_check_max_dates : ends_check_upto max_dates = true.
Proof. vm_compute. reflexivity. Qed.

Lemma frame_progress_below_100 (n stp i : Z) :
  1 <= n -> n <= Z.of_nat max_dates -> 1 <= stp -> 0 <= i -> i * stp < n ->
  exists p, frame_progress i stp n = OK p /\ 0 <= p <= 99
            /\ (i = 0 -> p = 0).
Proof.
  intros Hn1 Hn Hstp Hi Hlt.
  destruct (ends_check_sound max_dates ends_check_max_dates n Hn1 Hn)
    as [H0 [p1 [Hp1 Hle1]]].
  destruct (frame_progress_monotone n 1 (i * stp) (n - 1))
    as [p [p1' [Hp [Hp1' [Hlo [Hle _]]]]]]; try lia; try nia.
  rewrite Hp1 in Hp1'. injection Hp1' as <-.
  rewrite <- frame_progress_offset in Hp.
  exists p. split; [exact Hp |]. split; [lia |].
  intros ->. rewrite frame_progress_offset in Hp. simpl in Hp.
  rewrite H0 in Hp. injection Hp as <-. reflexivity.
Qed.

(** X16: on a table dated by valid time stamps, in a run that ends
    without an exception the progress values are 0, then one value from
    0 to 99 for each frame, the first of them 0, then 100: the bar shows
    100 at the completion step only. *)
Theorem progress_100_only_at_completion (data : DataFrame)
    (animation_speed : Z) (evs : list UIEvent) :
  Forall valid_timestamp (index data) ->
  1 <= animation_speed <= 10 ->
  play_animation data animation_speed = OK evs ->
  exists vals,
    progress_values evs = 0 :: vals ++ [100]
    /\ length vals = length (sleeps evs)
    /\ Forall (fun p => 0 <= p <= 99) vals
    /\ (forall p rest, vals = p :: rest -> p = 0).
Proof.
  intros Hvalid Hspeed H.
  apply play_animation_OK in H.
  destruct H as [r0 [tl [e [init [last_row [fevs [Hd [He [_ [Hloop ->]]]]]]]]]].
  rewrite Forall_forall in Hvalid.
  assert (Hvs : valid_timestamp (date r0))
    by (apply Hvalid; rewrite Hd; left; reflexivity).
  assert (Hve : valid_timestamp e).
  { apply Hvalid. destruct (getitem_neg1_app _ _ He) as [l Hl].
    rewrite Hl. apply in_or_app. right. left. reflexivity. }
  set (dates := date_range_QS (date r0) e) in *.
  set (stp := step dates animation_speed) in *.
  assert (Hstp : 1 <= stp) by apply step_ge_1.
  assert (Hlen : len dates <= Z.of_nat max_dates)
    by (apply len_date_range_QS; assumption).
  apply animation_loop_events in Hloop. destruct Hloop as [_ [Hs Hv]].
  exists (map (progress_of stp (len dates)) (enumerate (slice_step dates stp))).
  split; [| split; [| split]].
  - cbn [app progress_values]. rewrite progress_values_app, Hv. reflexivity.
  - cbn [app sleeps]. rewrite sleeps_app. cbn [app show_metrics sleeps].
    rewrite app_nil_r, Hs, repeat_length. apply length_map.
  - rewrite Forall_forall. intros p Hp. rewrite in_map_iff in Hp.
    destruct Hp as [[i d] [<- Hin]].
    destruct (slice_step_frames dates stp i d Hstp Hin) as [Hi [Hlt _]].
    destruct (frame_progress_below_100 (len dates) stp i)
      as [p [Hp [Hb _]]]; try lia.
    unfold progress_of. cbn [fst]. rewrite Hp. exact Hb.
  - intros p rest Heq.
    unfold enumerate in Heq.
    destruct (slice_step dates stp) as [| d ds] eqn:E; [discriminate Heq |].
    cbn [enumerate_from map] in Heq. injection Heq as <- _.
    assert (Hin : In (0, d) (enumerate (slice_step dates stp)))
      by (rewrite E; left; reflexivity).
    destruct (slice_step_frames dates stp 0 d Hstp Hin) as [_ [Hlt _]].
    destruct (frame_progress_below_100 (len dates) stp 0)
      as [p [Hp [_ H0]]]; try lia.
    unfold progress_of. cbn [fst]. rewrite Hp. apply H0. reflexivity.
Qed.

Lemma progress_100_only_at_completion_witness :
  exists vals,
    progress_values two_years_run = 0 :: vals ++ [100]
    /\ length vals = length (sleeps two_years_run)
    /\ Forall (fun p => 0 <= p <= 99) vals
    /\ (forall p rest, vals = p :: rest -> p = 0).
Proof.
  apply (progress_100_only_at_completion two_years 5 two_years_run).
  - repeat constructor; simpl; lia.
  - lia.
  - vm_compute. reflexivity.
Defined.
